(** * getlatest: a shallow embedding of [getlatest.go] and its specification

    The Go program keeps one [getter] per configured output file.  [setup]
    validates and normalises the configuration, [should] decides whether a
    fetch is due, [trydownload] fetches into a temporary file and renames it
    onto the output path, and [download] tracks the failure streak in a
    Prometheus gauge.

    Go strings are byte strings; they are modelled as Rocq [string]s (one
    [ascii] per byte).  Behaviour of the Go standard library and of the
    Prometheus client that this repository only calls is either written out
    (time formatting, [time.Parse] with layout "15:04", the ASCII paths of
    [strings.ToLower] and [strings.TrimSpace], [strings.Contains],
    [strings.Compare], [filepath.Split], UTF-8 validation of label values)
    or, where it is a large library of its own (html/template, net/url,
    [time.ParseDuration], Unicode case and space tables), taken as a
    parameter record [GoLib]. *)

From Stdlib Require Import ZArith Lia Bool Ascii String List.
From stdpp Require Import base gmap strings.
Import ListNotations.
Open Scope Z_scope.

(* ------------------------------------------------------------------ *)
(** ** Time and durations (package [time]) *)

(** A [time.Time]: the wall-clock instant in nanoseconds since the zero
    time (January 1, year 1, 00:00 UTC), the optional monotonic clock
    reading that [time.Now] attaches, and the offset in seconds of the
    location the time is displayed in. *)
Record Time := mkTime {
  wall : Z;
  mono : option Z;
  zone_offset : Z
}.

(** [time.Time{}]. *)
Definition zero_time : Time := mkTime 0 None 0.

(** [t.IsZero()]: seconds and nanoseconds both zero. *)
Definition IsZero (t : Time) : bool := wall t =? 0.

Definition Nanosecond : Z := 1.
Definition Second : Z := 1000000000.
Definition Hour : Z := 3600 * Second.

(** [time.Duration] is an int64 count of nanoseconds. *)
Definition minDuration : Z := - 2 ^ 63.
Definition maxDuration : Z := 2 ^ 63 - 1.

Definition clamp_duration (d : Z) : Z := Z.max minDuration (Z.min maxDuration d).

(** The exact difference [t.Sub(u)] starts from: the monotonic readings
    when both times carry one, the wall clocks otherwise. *)
Definition elapsed (t u : Time) : Z :=
  match mono t, mono u with
  | Some a, Some b => a - b
  | _, _ => wall t - wall u
  end.

(** [t.Sub(u)]: the difference, saturated to the range of [Duration]. *)
Definition Sub (t u : Time) : Z := clamp_duration (elapsed t u).

(** Seconds of the wall clock in the time's location. *)
Definition local_seconds (t : Time) : Z := wall t / Second + zone_offset t.

Definition clock_hour (t : Time) : Z := (local_seconds t mod 86400) / 3600.
Definition clock_minute (t : Time) : Z := (local_seconds t mod 3600) / 60.

(** [t.Weekday()], Sunday = 0; January 1 of year 1 was a Monday. *)
Definition weekday (t : Time) : Z := (local_seconds t / 86400 + 1) mod 7.

Definition digit (n : Z) : ascii := ascii_of_nat (Z.to_nat (48 + n)).

(** A two-digit, zero-padded field, as the layout elements "15" and "04". *)
Definition fmt2 (n : Z) : string :=
  String (digit (n / 10)) (String (digit (n mod 10)) EmptyString).

(** [t.Format("15:04")]. *)
Definition format_clock (t : Time) : string :=
  fmt2 (clock_hour t) ++ ":" ++ fmt2 (clock_minute t).

Definition weekday_abbrev (d : Z) : string :=
  nth (Z.to_nat d) ["Sun"; "Mon"; "Tue"; "Wed"; "Thu"; "Fri"; "Sat"]%string "".

(** [t.Format("Mon")]. *)
Definition format_Mon (t : Time) : string := weekday_abbrev (weekday t).

(** A time built from a local date: [days] since January 1 of year 1,
    the local hour and minute and the zone offset in seconds. *)
Definition at_local (days h m offset : Z) : Time :=
  mkTime ((days * 86400 + h * 3600 + m * 60 - offset) * Second) None offset.

(* ------------------------------------------------------------------ *)
(** ** Library code that is a parameter *)

(** The parts of the Go libraries this program calls whose behaviour is
    a library of its own. *)
Record GoLib := {
  (** [template.New("url").Parse(s)] (html/template) succeeds. *)
  tmpl_parse : string -> bool;
  (** Executing the template text with [{"time": t}]; [None] is an error. *)
  tmpl_exec : string -> Time -> option string;
  (** [url.Parse(s)]: [None] is a parse error, otherwise the [Scheme]. *)
  url_scheme : string -> option string;
  (** [time.ParseDuration(s)]. *)
  parse_duration : string -> option Z;
  (** [strings.Map(unicode.ToLower, s)], the non-ASCII path of [ToLower]. *)
  unicode_lower : string -> string;
  (** [strings.TrimFunc(s, unicode.IsSpace)], the non-ASCII path of
      [TrimSpace]. *)
  unicode_trim : string -> string;
  (** [os.TempDir()]. *)
  temp_dir : string
}.

(* ------------------------------------------------------------------ *)
(** ** Package [strings] *)

Definition byte_of (c : ascii) : Z := Z.of_nat (nat_of_ascii c).

(** [c >= utf8.RuneSelf]. *)
Definition non_ascii (c : ascii) : bool := 128 <=? byte_of c.

Fixpoint is_ascii_str (s : string) : bool :=
  match s with
  | EmptyString => true
  | String c s' => negb (non_ascii c) && is_ascii_str s'
  end.

Definition ascii_lower (c : ascii) : ascii :=
  if (65 <=? byte_of c) && (byte_of c <=? 90)
  then ascii_of_nat (nat_of_ascii c + 32) else c.

Fixpoint map_ascii_lower (s : string) : string :=
  match s with
  | EmptyString => EmptyString
  | String c s' => String (ascii_lower c) (map_ascii_lower s')
  end.

(** [strings.ToLower]: byte-wise on ASCII strings, Unicode otherwise. *)
Definition ToLower (L : GoLib) (s : string) : string :=
  if is_ascii_str s then map_ascii_lower s else unicode_lower L s.

(** [asciiSpace]: tab, newline, vertical tab, form feed, return, space. *)
Definition ascii_space (c : ascii) : bool :=
  let b := byte_of c in
  ((9 <=? b) && (b <=? 13)) || (b =? 32).

(** The forward loop of [TrimSpace]: [inl rest] when it meets a non-ASCII
    byte (rest starts there), [inr rest] when it stops at a non-space. *)
Fixpoint trim_left_scan (s : string) : string + string :=
  match s with
  | EmptyString => inr EmptyString
  | String c s' =>
      if non_ascii c then inl s
      else if ascii_space c then trim_left_scan s' else inr s
  end.

(** The backward loop, over the reversed bytes. *)
Fixpoint trim_right_scan (r : list ascii) : list ascii + list ascii :=
  match r with
  | [] => inr []
  | c :: r' =>
      if non_ascii c then inl r
      else if ascii_space c then trim_right_scan r' else inr r
  end.

Definition string_of_rev (r : list ascii) : string := string_of_list_ascii (rev r).

(** [strings.TrimSpace]. *)
Definition TrimSpace (L : GoLib) (s : string) : string :=
  match trim_left_scan s with
  | inl rest => unicode_trim L rest
  | inr s1 =>
      match trim_right_scan (rev (list_ascii_of_string s1)) with
      | inl r => unicode_trim L (string_of_rev r)
      | inr r => string_of_rev r
      end
  end.

Fixpoint HasPrefix (s p : string) : bool :=
  match p, s with
  | EmptyString, _ => true
  | String c p', String d s' => Ascii.eqb c d && HasPrefix s' p'
  | String _ _, EmptyString => false
  end.

(** [strings.Contains(s, sub)]. *)
Fixpoint Contains (s sub : string) : bool :=
  HasPrefix s sub ||
  match s with
  | EmptyString => false
  | String _ s' => Contains s' sub
  end.

(** [strings.Compare(a, b)]: byte-wise lexicographic, -1, 0 or +1. *)
Fixpoint Compare (a b : string) : Z :=
  match a, b with
  | EmptyString, EmptyString => 0
  | EmptyString, String _ _ => -1
  | String _ _, EmptyString => 1
  | String c a', String d b' =>
      if byte_of c <? byte_of d then -1
      else if byte_of d <? byte_of c then 1
      else Compare a' b'
  end.

(* ------------------------------------------------------------------ *)
(** ** [time.Parse("15:04", s)] *)

Definition is_digit (c : ascii) : bool := (48 <=? byte_of c) && (byte_of c <=? 57).

(** [getnum(s, fixed)]: one or two leading digits; [fixed] demands two. *)
Definition getnum (s : string) (fixed : bool) : option (Z * string) :=
  match s with
  | String c s' =>
      if is_digit c then
        match s' with
        | String d s'' =>
            if is_digit d then Some ((byte_of c - 48) * 10 + (byte_of d - 48), s'')
            else if fixed then None else Some (byte_of c - 48, s')
        | EmptyString => if fixed then None else Some (byte_of c - 48, s')
        end
      else None
  | EmptyString => None
  end.

(** Layout "15:04": [stdHour] (not fixed, below 24), the literal ":",
    [stdZeroMinute] (fixed, below 60), and no extra text. *)
Definition parse_clock (s : string) : option (Z * Z) :=
  match getnum s false with
  | Some (h, String c r) =>
      if Ascii.eqb c ":" then
        match getnum r true with
        | Some (m, EmptyString) => if (h <? 24) && (m <? 60) then Some (h, m) else None
        | _ => None
        end
      else None
  | _ => None
  end.

(** The lines of [setup] for [NotBefore] and [NotAfter]: an unparsable
    non-empty value is an error ([inl tt]); a parsable one is re-formatted
    with "15:04"; the empty string is kept. *)
Definition normalise_clock (s : string) : unit + string :=
  match parse_clock s with
  | Some (h, m) => inr (fmt2 h ++ ":" ++ fmt2 m)%string
  | None => if String.eqb s "" then inr s else inl tt
  end.

(* ------------------------------------------------------------------ *)
(** ** UTF-8 validity ([utf8.ValidString]) *)

Definition in_range (lo hi b : Z) : bool := (lo <=? b) && (b <=? hi).
Definition cont (b : Z) : bool := in_range 128 191 b.

Fixpoint utf8_valid (l : list Z) : bool :=
  match l with
  | [] => true
  | b :: r =>
      if b <? 128 then utf8_valid r
      else if in_range 194 223 b then
        match r with c :: r' => cont c && utf8_valid r' | [] => false end
      else if in_range 224 239 b then
        match r with
        | c :: d :: r' =>
            (if b =? 224 then in_range 160 191 c
             else if b =? 237 then in_range 128 159 c else cont c)
            && cont d && utf8_valid r'
        | _ => false
        end
      else if in_range 240 244 b then
        match r with
        | c :: d :: e :: r' =>
            (if b =? 240 then in_range 144 191 c
             else if b =? 244 then in_range 128 143 c else cont c)
            && cont d && cont e && utf8_valid r'
        | _ => false
        end
      else false
  end.

(** [failGaugeVec.GetMetricWithLabelValues(v)] succeeds: the vector has
    one label, so [validateLabelValues] only rejects a value that is not
    valid UTF-8. *)
Definition label_value_ok (v : string) : bool :=
  utf8_valid (map byte_of (list_ascii_of_string v)).

(* ------------------------------------------------------------------ *)
(** ** Paths and the file system *)

Fixpoint split_rev (r : list ascii) (file : list ascii) : list ascii * list ascii :=
  match r with
  | [] => ([], file)
  | c :: r' => if Ascii.eqb c "/" then (r, file) else split_rev r' (c :: file)
  end.

(** [filepath.Split(p)]: directory (with its trailing separator) and
    file name, split after the last '/'. *)
Definition Split (p : string) : string * string :=
  let '(rdir, file) := split_rev (rev (list_ascii_of_string p)) [] in
  (string_of_rev rdir, string_of_list_ascii file).

(** A file: its bytes and modification time. *)
Record File := mkFile { data : list Byte.byte; mtime : Time }.

(** Files are named by directory and base name. *)
Abbreviation FS := (gmap (string * string) File).

Definition path_key (p : string) : string * string := Split p.

(* ------------------------------------------------------------------ *)
(** ** The [getter] struct *)

Record getter := mkGetter {
  URL : string;
  Output : string;
  NotBefore : string;
  NotAfter : string;
  Weekdays : string;
  MinimumSize : Z;
  TTL : string;
  urlt : string;          (** the parsed template, kept as its text *)
  ttl : Z;
  lastSuccess : Time;
  failGauge : Z;          (** the gauge, as the [Duration] whose [Seconds()] is set *)
  failSince : Time
}.

Definition set_lastSuccess (g : getter) (t : Time) : getter :=
  mkGetter (URL g) (Output g) (NotBefore g) (NotAfter g) (Weekdays g) (MinimumSize g)
    (TTL g) (urlt g) (ttl g) t (failGauge g) (failSince g).

Definition set_fail (g : getter) (since : Time) (gauge : Z) : getter :=
  mkGetter (URL g) (Output g) (NotBefore g) (NotAfter g) (Weekdays g) (MinimumSize g)
    (TTL g) (urlt g) (ttl g) (lastSuccess g) gauge since.

(** A getter as [yaml.Unmarshal] and [main] leave it: configuration
    fields set, everything else zero. *)
Definition config (url out nb na wd : string) (minsize : Z) (ttlstr : string) : getter :=
  mkGetter url out nb na wd minsize ttlstr "" 0 zero_time 0 zero_time.

(* ------------------------------------------------------------------ *)
(** ** [setup] *)

Inductive SetupError :=
  | ETemplateParse | ETemplateExec | EURLParse | ENoScheme
  | ENotBefore | ENotAfter | ETTL | EGauge.

(** [now] is the [time.Now()] read by the sample expansion [g.url()]. *)
Definition setup (L : GoLib) (fs : FS) (now : Time) (g : getter) : SetupError + getter :=
  if negb (tmpl_parse L (URL g)) then inl ETemplateParse else
  match tmpl_exec L (URL g) now with
  | None => inl ETemplateExec
  | Some urlstr =>
  match url_scheme L urlstr with
  | None => inl EURLParse
  | Some scheme =>
  if String.eqb scheme "" then inl ENoScheme else
  let last := match fs !! path_key (Output g) with
              | Some f => mtime f
              | None => lastSuccess g
              end in
  match normalise_clock (NotBefore g) with
  | inl _ => inl ENotBefore
  | inr nb =>
  match normalise_clock (NotAfter g) with
  | inl _ => inl ENotAfter
  | inr na =>
  match (if String.eqb (TTL g) "" then inr Hour
         else match parse_duration L (TTL g) with
              | None => inl ETTL
              | Some d => inr d
              end) with
  | inl e => inl e
  | inr d =>
  let wd := TrimSpace L (Weekdays g) in
  let wd := if String.eqb wd "" then wd else (" " ++ ToLower L wd)%string in
  if negb (label_value_ok (Output g)) then inl EGauge else
  inr (mkGetter (URL g) (Output g) nb na wd (MinimumSize g) (TTL g)
         (URL g) d last 0 (failSince g))
  end end end end end.

(** [main]: every target is set up before any [run] starts; the first
    error is fatal. *)
Fixpoint setup_all (L : GoLib) (fs : FS) (now : Time) (gs : list getter)
  : SetupError + list getter :=
  match gs with
  | [] => inr []
  | g :: gs' =>
      match setup L fs now g with
      | inl e => inl e
      | inr g' => match setup_all L fs now gs' with
                  | inl e => inl e
                  | inr gs'' => inr (g' :: gs'')
                  end
      end
  end.

(* ------------------------------------------------------------------ *)
(** ** [should] *)

Definition should (L : GoLib) (g : getter) (t : Time) : bool :=
  if Sub t (lastSuccess g) <? ttl g then false else
  let now := format_clock t in
  if negb (String.eqb (NotBefore g) "") && (Compare now (NotBefore g) <? 0) then false else
  if negb (String.eqb (NotAfter g) "") && (Compare now (NotAfter g) >? 0) then false else
  if negb (String.eqb (Weekdays g) "")
     && negb (Contains (Weekdays g) (" " ++ ToLower L (format_Mon t))%string) then false else
  true.

(* ------------------------------------------------------------------ *)
(** ** One fetch attempt: [trydownload] and [download] *)

(** What [http.Get] returns: an error, or a response with its status code,
    its status text and its body. *)
Inductive HttpResult :=
  | HttpError
  | HttpResponse (code : Z) (status : string) (body : list Byte.byte).

Definition StatusOK : Z := 200.

(** The answers the environment gives during one tick: clock readings of
    each [time.Now()], the random suffix [ioutil.TempFile] settles on
    ([None]: it fails), the HTTP result, whether [io.Copy] fails after a
    number of bytes, and whether [f.Close] and [os.Rename] fail. *)
Record Attempt := mkAttempt {
  now_should : Time;       (** [g.should(time.Now())] in [download] *)
  now_url : Time;          (** [time.Now()] in [g.url()] *)
  tmp_suffix : option string;
  http : HttpResult;
  copy_error_after : option nat;
  close_error : bool;
  rename_error : bool;
  now_write : Time;        (** modification time of the temp file's writes *)
  now_success : Time;      (** [g.lastSuccess = time.Now()] *)
  now_fail_since : Time;   (** [g.failSince = time.Now()] *)
  now_fail_gauge : Time    (** [time.Now().Sub(g.failSince)] *)
}.

(** The errors [trydownload] formats, with the values they print. *)
Inductive FetchError :=
  | EURL
  | ETempFile
  | EGet
  | EStatus (code : Z) (status : string)
  | ECopy (written : Z)
  | ETooSmall (n minimum : Z)
  | EClose
  | ERename.

(** The temp file's key: [ioutil.TempFile(outdir, "."+outfile+".")] puts
    it in [outdir], or in [os.TempDir()] when [outdir] is empty. *)
Definition temp_key (L : GoLib) (out : string) (suffix : string) : string * string :=
  let '(outdir, outfile) := Split out in
  (if String.eqb outdir "" then temp_dir L else outdir,
   "." ++ outfile ++ "." ++ suffix)%string.

(** The temp file after [io.Copy] has written the first [i] bytes. *)
Definition with_temp (fs : FS) (tk : string * string) (bytes : list Byte.byte) (t : Time) : FS :=
  <[tk := mkFile bytes t]> fs.

(** One file-system state per byte [io.Copy] has written so far. *)
Definition copy_trace (fs : FS) (tk : string * string) (body : list Byte.byte) (k : nat) (t : Time)
  : list FS :=
  map (fun i => with_temp fs tk (firstn i body) t) (seq 1 k).

(** [trydownload]: the error (if any), the getter afterwards, and the
    file-system states it goes through, from the initial one to the one
    after the deferred [os.Remove(f.Name())] (the deferred [f.Close()]
    does not change the file system). *)
Definition trydownload (L : GoLib) (a : Attempt) (g : getter) (fs : FS)
  : option FetchError * getter * list FS :=
  match tmpl_exec L (urlt g) (now_url a) with
  | None => (Some EURL, g, [fs])
  | Some url =>
  match tmp_suffix a with
  | None => (Some ETempFile, g, [fs])
  | Some r =>
  let tk := temp_key L (Output g) r in
  match fs !! tk with
  | Some _ => (Some ETempFile, g, [fs])
  | None =>
  let fs1 := with_temp fs tk [] (now_write a) in
  let finish (e : option FetchError) (g' : getter) (tr : list FS) (last : FS) :=
    (e, g', fs :: fs1 :: tr ++ [delete tk last]) in
  match http a with
  | HttpError => finish (Some EGet) g [] fs1
  | HttpResponse code status body =>
  if negb (code =? StatusOK) then finish (Some (EStatus code status)) g [] fs1 else
  match copy_error_after a with
  | Some k =>
      let tr := copy_trace fs1 tk body k (now_write a) in
      finish (Some (ECopy (Z.of_nat (length (firstn k body))))) g tr (List.last tr fs1)
  | None =>
  let n := Z.of_nat (length body) in
  let tr := copy_trace fs1 tk body (length body) (now_write a) in
  let fs2 := with_temp fs1 tk body (now_write a) in
  if n <? MinimumSize g then finish (Some (ETooSmall n (MinimumSize g))) g tr fs2 else
  if close_error a then finish (Some EClose) g tr fs2 else
  if rename_error a then finish (Some ERename) g tr fs2 else
  let fs3 := <[path_key (Output g) := mkFile body (now_write a)]> (delete tk fs2) in
  finish None (set_lastSuccess g (now_success a)) (tr ++ [fs3]) fs3
  end end end end end.

(** Lines 202-211 of [download]: the failure streak bookkeeping after an
    attempt that succeeded ([ok]) or failed. *)
Definition report (g : getter) (ok : bool) (t_since t_gauge : Time) : getter :=
  if ok then set_fail g zero_time 0
  else
    let since := if IsZero (failSince g) then t_since else failSince g in
    set_fail g since (Sub t_gauge since).

Definition is_ok (e : option FetchError) : bool :=
  match e with None => true | Some _ => false end.

(** [download]: the getter afterwards and the file-system states. *)
Definition download (L : GoLib) (a : Attempt) (g : getter) (fs : FS) : getter * list FS :=
  if negb (should L g (now_should a)) then (g, [fs]) else
  let '(e, g', tr) := trydownload L a g fs in
  (report g' (is_ok e) (now_fail_since a) (now_fail_gauge a), tr).

(** The file system after an attempt. *)
Definition final_fs (fs : FS) (tr : list FS) : FS := List.last tr fs.

(* ------------------------------------------------------------------ *)
(** ** A concrete library for evaluating examples *)

(** Go's [url.getScheme]: letters, then letters, digits, '+', '-' or '.',
    up to a ':'; a ':' in first position is the error
    "missing protocol scheme"; any other byte means no scheme.
    [url.Parse] then lowercases the scheme. *)
Fixpoint scheme_scan (s : string) (first : bool) (acc : list ascii) : option string :=
  match s with
  | EmptyString => Some ""%string
  | String c s' =>
      let b := byte_of c in
      if in_range 97 122 b || in_range 65 90 b then scheme_scan s' false (c :: acc)
      else if in_range 48 57 b || (b =? 43) || (b =? 45) || (b =? 46) then
        (if first then Some ""%string else scheme_scan s' false (c :: acc))
      else if b =? 58 then (if first then None else Some (map_ascii_lower (string_of_rev acc)))
      else Some ""%string
  end.

(** [stringContainsCTLByte]: [url.Parse] rejects control bytes. *)
Fixpoint has_ctl (s : string) : bool :=
  match s with
  | EmptyString => false
  | String c s' => (byte_of c <? 32) || (byte_of c =? 127) || has_ctl s'
  end.

(** The decimal digits at the start of a string: value, count, rest. *)
Fixpoint take_digits (s : string) (v : Z) (n : nat) : Z * nat * string :=
  match s with
  | String c s' => if is_digit c then take_digits s' (v * 10 + (byte_of c - 48)) (S n)
                   else (v, n, s)
  | EmptyString => (v, n, s)
  end.

(** The unit after a number: every byte up to the next digit or '.'. *)
Fixpoint take_unit (s : string) : string * string :=
  match s with
  | String c s' =>
      if is_digit c || Ascii.eqb c "." then (EmptyString, s)
      else let '(u, r) := take_unit s' in (String c u, r)
  | EmptyString => (EmptyString, EmptyString)
  end.

Definition unit_ns (u : string) : option Z :=
  if String.eqb u "ns" then Some 1
  else if String.eqb u "us" then Some 1000
  else if String.eqb u "ms" then Some 1000000
  else if String.eqb u "s" then Some Second
  else if String.eqb u "m" then Some (60 * Second)
  else if String.eqb u "h" then Some Hour
  else None.

Fixpoint duration_segments (fuel : nat) (s : string) : option Z :=
  match fuel with
  | O => None
  | S f =>
      match s with
      | EmptyString => Some 0
      | _ =>
          let '(v, n, r) := take_digits s 0 0 in
          if Nat.eqb n 0 then None else
          let '(u, r') := take_unit r in
          match unit_ns u, duration_segments f r' with
          | Some k, Some rest => Some (v * k + rest)
          | _, _ => None
          end
      end
  end.

(** [time.ParseDuration] on unsigned durations without fractions
    ("0", "90s", "1h30m"), which is all the examples below use. *)
Definition parse_duration_simple (s : string) : option Z :=
  if String.eqb s "0" then Some 0
  else if String.eqb s "" then None
  else duration_segments (String.length s) s.

(** Go's behaviour on the inputs the examples of this file use: templates
    without actions ("{{"), which expand to their own text; [url.Parse]'s
    scheme and control-byte check; unsigned durations; ASCII strings (the
    Unicode paths of [ToLower] and [TrimSpace] are never reached on them,
    so they are left as the identity here); [os.TempDir()] = "/tmp". *)
Definition plain_lib : GoLib := {|
  tmpl_parse := fun s => negb (Contains s "{{");
  tmpl_exec := fun s _ => if Contains s "{{" then None else Some s;
  url_scheme := fun s => if has_ctl s then None else scheme_scan s true [];
  parse_duration := parse_duration_simple;
  unicode_lower := fun s => s;
  unicode_trim := fun s => s;
  temp_dir := "/tmp"
|}.

(** 2019-08-28 (a Wednesday) is day 737298 after January 1 of year 1;
    the test's times are in UTC-7. *)
Definition aug28 : Z := 737298.
Definition pdt : Z := -7 * 3600.

Example aug28_0400 :
  format_clock (at_local aug28 4 0 pdt) = "04:00"%string /\ format_Mon (at_local aug28 4 0 pdt) = "Wed"%string.
Proof. split; vm_compute; reflexivity. Qed.

Example aug31_0859 :
  format_clock (at_local (aug28 + 3) 8 59 pdt) = "08:59"%string
  /\ format_Mon (at_local (aug28 + 3) 8 59 pdt) = "Sat"%string.
Proof. split; vm_compute; reflexivity. Qed.

Example parse_clock_examples :
  normalise_clock "7:00" = inr "07:00"%string /\ normalise_clock "09:00" = inr "09:00"%string
  /\ normalise_clock "24:00" = inl tt /\ normalise_clock "7:0" = inl tt
  /\ normalise_clock "" = inr ""%string.
Proof. repeat apply conj; vm_compute; reflexivity. Qed.

Example parse_duration_examples :
  parse_duration_simple "1h" = Some Hour /\ parse_duration_simple "1h30m" = Some (90 * 60 * Second)
  /\ parse_duration_simple "x" = None.
Proof. repeat apply conj; vm_compute; reflexivity. Qed.

Example trim_lower_example :
  TrimSpace plain_lib "  Mon Tue Wed Thu Fri " = "Mon Tue Wed Thu Fri"%string
  /\ ToLower plain_lib "Mon Tue" = "mon tue"%string.
Proof. split; vm_compute; reflexivity. Qed.

Example label_examples :
  label_value_ok "/tmp/x" = true /\ label_value_ok (String (ascii_of_nat 255) "") = false.
Proof. split; vm_compute; reflexivity. Qed.

(* ------------------------------------------------------------------ *)
(** ** Eligibility: [should] *)

(** The three window rules of [should] after the TTL rule. *)
Definition window_rules (L : GoLib) (g : getter) (t : Time) : bool :=
  let now := format_clock t in
  negb (negb (String.eqb (NotBefore g) "") && (Compare now (NotBefore g) <? 0))
  && negb (negb (String.eqb (NotAfter g) "") && (Compare now (NotAfter g) >? 0))
  && negb (negb (String.eqb (Weekdays g) "")
           && negb (Contains (Weekdays g) (" " ++ ToLower L (format_Mon t))%string)).

(** A value of Go's [time.Duration] type. *)
Definition duration_range (d : Z) : Prop := minDuration <= d <= maxDuration.

Lemma should_split (L : GoLib) (g : getter) (t : Time) :
  should L g t = negb (Sub t (lastSuccess g) <? ttl g) && window_rules L g t.
Proof.
  unfold should, window_rules. cbv zeta.
  repeat match goal with |- context [if ?b then _ else _] => destruct b end;
  reflexivity.
Qed.

Lemma Sub_lt_of_elapsed (t u : Time) (d : Z) :
  minDuration < d -> elapsed t u < d -> Sub t u < d.
Proof. unfold Sub, clamp_duration, minDuration, maxDuration. lia. Qed.

Lemma Sub_ge_of_elapsed (t u : Time) (d : Z) :
  d <= maxDuration -> d <= elapsed t u -> d <= Sub t u.
Proof. unfold Sub, clamp_duration, minDuration, maxDuration. lia. Qed.

(** A getter with no window, [ttl] the smallest [Duration] (TTL
    "-2562047h47m16.854775808s") and an output file whose modification
    time lies more than 292 years after 2019-08-28 noon UTC. *)
Definition min_ttl_getter : getter :=
  mkGetter "http://host.example/foo" "/tmp/x" "" "" "" 0 "-2562047h47m16.854775808s"
    "http://host.example/foo" minDuration
    (mkTime (wall (at_local aug28 12 0 0) + 2 ^ 63 + 1) None 0) 0 zero_time.

(** A getter fresh from [setup] with the default TTL and no output file. *)
Definition default_getter : getter :=
  mkGetter "http://host.example/foo" "/tmp/x" "" "" "" 0 ""
    "http://host.example/foo" Hour zero_time 0 zero_time.

(** The claim C1 as stated, for one getter and one time: the TTL rule
    fails below [ttl], passes (given the window) from [ttl] on, and a zero
    [lastSuccess] always passes it. *)
Definition ttl_rule_as_claimed (L : GoLib) (g : getter) (t : Time) : Prop :=
  (elapsed t (lastSuccess g) < ttl g -> should L g t = false)
  /\ (ttl g <= elapsed t (lastSuccess g) -> window_rules L g t = true -> should L g t = true)
  /\ (lastSuccess g = zero_time -> window_rules L g t = true -> should L g t = true).

(** ** Theorems *)

(** Claim C1 (counterexample).  [t.Sub(u)] saturates at the bounds of
    [Duration]: with [ttl] the smallest [Duration] and a modification time
    more than 292 years ahead, the true difference is below [ttl] yet
    [should] is true; and a zero [lastSuccess] does not pass the default
    one-hour TTL rule at the zero time itself. *)
Lemma should_ttl_rule_counterexample :
  ~ ttl_rule_as_claimed plain_lib min_ttl_getter (at_local aug28 12 0 0)
  /\ ~ ttl_rule_as_claimed plain_lib default_getter zero_time.
Proof.
  split; intros [H1 [_ H3]].
  - assert (E : should plain_lib min_ttl_getter (at_local aug28 12 0 0) = true)
      by (vm_compute; reflexivity).
    rewrite H1 in E; [discriminate|].
    vm_compute. reflexivity.
  - assert (E : should plain_lib default_getter zero_time = false)
      by (vm_compute; reflexivity).
    rewrite H3 in E; [discriminate|reflexivity|vm_compute; reflexivity].
Qed.

(** Claim C1 (amended).  For [ttl] a [Duration]: [should] is false when
    the saturated difference [t.Sub(lastSuccess)] is below [ttl], hence
    whenever the true difference is below a [ttl] above the smallest
    [Duration]; from [ttl] on it is exactly the window rules; and a zero
    [lastSuccess] passes the TTL rule at every [t] at least [ttl] after the
    zero time (every [t] after year 293). *)
Theorem should_ttl_rule (L : GoLib) (g : getter) (t : Time) :
  duration_range (ttl g) ->
  (Sub t (lastSuccess g) < ttl g -> should L g t = false)
  /\ (minDuration < ttl g -> elapsed t (lastSuccess g) < ttl g -> should L g t = false)
  /\ (ttl g <= elapsed t (lastSuccess g) -> should L g t = window_rules L g t)
  /\ (lastSuccess g = zero_time -> ttl g <= wall t -> should L g t = window_rules L g t).
Proof.
  intros [Hlo Hhi].
  assert (Hfail : Sub t (lastSuccess g) < ttl g -> should L g t = false).
  { intros H. rewrite should_split. apply Z.ltb_lt in H. rewrite H. reflexivity. }
  assert (Hpass : ttl g <= elapsed t (lastSuccess g) -> should L g t = window_rules L g t).
  { intros H. rewrite should_split.
    assert (Hs : ttl g <= Sub t (lastSuccess g)) by (apply Sub_ge_of_elapsed; assumption).
    apply Z.ltb_ge in Hs. rewrite Hs. reflexivity. }
  split; [exact Hfail|]. split.
  { intros Hmin H. apply Hfail, Sub_lt_of_elapsed; assumption. }
  split; [exact Hpass|].
  intros Hz Hw. apply Hpass. rewrite Hz. unfold elapsed. simpl.
  destruct (mono t); simpl; lia.
Qed.

(** The time of the C1 witness: 2019-08-28 12:00 UTC from [time.Now()]. *)
Definition noon_aug28 : Time :=
  mkTime (wall (at_local aug28 12 0 0)) (Some 5000000000) 0.

Lemma should_ttl_rule_witness :
  duration_range (ttl default_getter)
  /\ should plain_lib default_getter noon_aug28 = window_rules plain_lib default_getter noon_aug28.
Proof.
  assert (Hr : duration_range (ttl default_getter))
    by (unfold duration_range, minDuration, maxDuration; simpl; unfold Hour, Second; lia).
  split; [exact Hr|].
  apply (should_ttl_rule plain_lib default_getter noon_aug28 Hr); [reflexivity|].
  vm_compute. discriminate.
Defined.

(** The fields of a getter that [setup] accepted. *)
Lemma setup_ok_fields (L : GoLib) (fs : FS) (now : Time) (g0 g : getter) :
  setup L fs now g0 = inr g ->
  normalise_clock (NotBefore g0) = inr (NotBefore g)
  /\ normalise_clock (NotAfter g0) = inr (NotAfter g)
  /\ Weekdays g = (let wd := TrimSpace L (Weekdays g0) in
                   if String.eqb wd "" then wd else (" " ++ ToLower L wd)%string)
  /\ (String.eqb (TTL g0) "" = true -> ttl g = Hour)
  /\ (String.eqb (TTL g0) "" = false -> parse_duration L (TTL g0) = Some (ttl g))
  /\ Output g = Output g0 /\ MinimumSize g = MinimumSize g0 /\ urlt g = URL g0
  /\ lastSuccess g = match fs !! path_key (Output g0) with
                     | Some f => mtime f
                     | None => lastSuccess g0
                     end
  /\ failGauge g = 0 /\ failSince g = failSince g0.
Proof.
  unfold setup. intros H.
  destruct (tmpl_parse L (URL g0)); simpl in H; [|discriminate].
  destruct (tmpl_exec L (URL g0) now) as [u|]; [|discriminate].
  destruct (url_scheme L u) as [sc|]; [|discriminate].
  destruct (String.eqb sc ""); [discriminate|].
  destruct (normalise_clock (NotBefore g0)) as [|nb] eqn:Enb; [discriminate|].
  destruct (normalise_clock (NotAfter g0)) as [|na] eqn:Ena; [discriminate|].
  destruct (String.eqb (TTL g0) "") eqn:Ettl.
  - destruct (label_value_ok (Output g0)); simpl in H; [|discriminate].
    injection H as <-. simpl.
    repeat split; try reflexivity; intros; discriminate.
  - destruct (parse_duration L (TTL g0)) as [d|] eqn:Ed; [|discriminate].
    destruct (label_value_ok (Output g0)); simpl in H; [|discriminate].
    injection H as <-. simpl.
    repeat split; try reflexivity; try assumption; intros; discriminate.
Qed.

(** Claim C2.  The test's target (NotBefore "07:00", NotAfter "09:00",
    Weekdays "Mon Tue Wed Thu Fri"), once set up, with its TTL rule
    satisfied: not eligible at 04:00 on a Wednesday, eligible at 07:00 and
    at 08:59 on a Wednesday, not at 09:15 on a Wednesday, and not at 08:59
    on a Saturday. *)
Theorem should_beforework (L : GoLib) (fs : FS) (now : Time) (url out : string)
    (minsize : Z) (ttls : string) (g : getter) (t : Time) :
  setup L fs now (config url out "07:00" "09:00" "Mon Tue Wed Thu Fri" minsize ttls) = inr g ->
  ttl g <= Sub t (lastSuccess g) ->
  (weekday t = 3 -> clock_hour t = 4 -> clock_minute t = 0 -> should L g t = false)
  /\ (weekday t = 3 -> clock_hour t = 7 -> clock_minute t = 0 -> should L g t = true)
  /\ (weekday t = 3 -> clock_hour t = 8 -> clock_minute t = 59 -> should L g t = true)
  /\ (weekday t = 3 -> clock_hour t = 9 -> clock_minute t = 15 -> should L g t = false)
  /\ (weekday t = 6 -> clock_hour t = 8 -> clock_minute t = 59 -> should L g t = false).
Proof.
  intros Hs Httl.
  destruct (setup_ok_fields L fs now _ _ Hs) as [Hnb [Hna [Hwd _]]].
  simpl in Hnb, Hna, Hwd.
  assert (Enb : NotBefore g = "07:00"%string).
  { assert (E : normalise_clock "07:00" = inr "07:00"%string) by (vm_compute; reflexivity).
    rewrite E in Hnb. injection Hnb as <-. reflexivity. }
  assert (Ena : NotAfter g = "09:00"%string).
  { assert (E : normalise_clock "09:00" = inr "09:00"%string) by (vm_compute; reflexivity).
    rewrite E in Hna. injection Hna as <-. reflexivity. }
  assert (Ewd : Weekdays g = " mon tue wed thu fri"%string)
    by (rewrite Hwd; vm_compute; reflexivity).
  assert (Ettl : (Sub t (lastSuccess g) <? ttl g) = false) by (apply Z.ltb_ge; exact Httl).
  rewrite !should_split, Ettl.
  unfold window_rules, format_clock, format_Mon. rewrite Enb, Ena, Ewd.
  repeat split; intros Hd Hh Hm; rewrite Hd, Hh, Hm; vm_compute; reflexivity.
Qed.

(** The getter [setup] makes of the test's target. *)
Definition beforework_getter : getter :=
  mkGetter "http://host.example/foo" "/tmp/x" "07:00" "09:00" " mon tue wed thu fri" 0 "1h"
    "http://host.example/foo" Hour zero_time 0 zero_time.

Lemma should_beforework_witness :
  setup plain_lib ∅ noon_aug28
    (config "http://host.example/foo" "/tmp/x" "07:00" "09:00" "Mon Tue Wed Thu Fri" 0 "1h")
    = inr beforework_getter
  /\ ttl beforework_getter <= Sub (at_local aug28 4 0 pdt) (lastSuccess beforework_getter)
  /\ should plain_lib beforework_getter (at_local aug28 4 0 pdt) = false.
Proof.
  assert (Hs : setup plain_lib ∅ noon_aug28
    (config "http://host.example/foo" "/tmp/x" "07:00" "09:00" "Mon Tue Wed Thu Fri" 0 "1h")
    = inr beforework_getter) by (vm_compute; reflexivity).
  assert (Ht : ttl beforework_getter <= Sub (at_local aug28 4 0 pdt) (lastSuccess beforework_getter))
    by (vm_compute; discriminate).
  split; [exact Hs|]. split; [exact Ht|].
  apply (proj1 (should_beforework plain_lib ∅ noon_aug28 _ _ _ _ _ _ Hs Ht));
    vm_compute; reflexivity.
Defined.

(* ------------------------------------------------------------------ *)
(** ** The temp file and the output file *)

Lemma length_append_str (s1 s2 : string) :
  String.length (s1 ++ s2) = (String.length s1 + String.length s2)%nat.
Proof. induction s1 as [|c s1 IH]; simpl; [reflexivity|]. rewrite IH. reflexivity. Qed.

(** The temp file's name ".<outfile>.<suffix>" is longer than the output
    file's name, so the two are never the same file. *)
Lemma temp_key_ne (L : GoLib) (out r : string) : temp_key L out r <> path_key out.
Proof.
  unfold temp_key, path_key. destruct (Split out) as [d f].
  intros H. injection H as _ Hf.
  apply (f_equal String.length) in Hf.
  rewrite !length_append_str in Hf. simpl in Hf. lia.
Qed.

(** States that differ from [fs] at most in the temp file. *)
Definition temp_only (fs : FS) (tk : string * string) (m : FS) : Prop :=
  exists f, m = <[tk := f]> fs.

Lemma temp_only_with_temp (fs m : FS) tk bytes t :
  temp_only fs tk m -> temp_only fs tk (with_temp m tk bytes t).
Proof.
  intros [f ->]. exists (mkFile bytes t). unfold with_temp. apply insert_insert_eq.
Qed.

Lemma temp_only_delete (fs m : FS) tk :
  fs !! tk = None -> temp_only fs tk m -> delete tk m = fs.
Proof.
  intros Hn [f ->]. rewrite delete_insert_eq. apply delete_id. exact Hn.
Qed.

Lemma Forall_last {A} (P : A -> Prop) (l : list A) (d : A) :
  P d -> Forall P l -> P (List.last l d).
Proof.
  intros Hd Hl. induction Hl as [|x l Hx Hl IH]; [exact Hd|].
  destruct l as [|y l]; [exact Hx|exact IH].
Qed.

Lemma copy_trace_temp_only (fs m : FS) tk body k t :
  temp_only fs tk m -> Forall (temp_only fs tk) (copy_trace m tk body k t).
Proof.
  intros Hm. unfold copy_trace. apply Forall_forall.
  intros x Hx. apply list_elem_of_In, in_map_iff in Hx as [i [<- _]].
  apply temp_only_with_temp. exact Hm.
Qed.

Lemma temp_only_output (L : GoLib) (fs m : FS) out r :
  temp_only fs (temp_key L out r) m -> m !! path_key out = fs !! path_key out.
Proof.
  intros [f ->]. apply lookup_insert_ne. apply temp_key_ne.
Qed.

Lemma final_fs_finish (fs fs1 x : FS) (tr : list FS) :
  final_fs fs (fs :: fs1 :: tr ++ [x]) = x.
Proof.
  unfold final_fs. change (fs :: fs1 :: tr ++ [x]) with ((fs :: fs1 :: tr) ++ [x]).
  apply last_last.
Qed.

Lemma report_lastSuccess (g : getter) ok t1 t2 :
  lastSuccess (report g ok t1 t2) = lastSuccess g.
Proof. unfold report. destruct ok; reflexivity. Qed.

(** [download] after an attempt it makes. *)
Lemma download_attempted (L : GoLib) (a : Attempt) (g : getter) (fs : FS) e g' tr :
  should L g (now_should a) = true ->
  trydownload L a g fs = (e, g', tr) ->
  download L a g fs = (report g' (is_ok e) (now_fail_since a) (now_fail_gauge a), tr).
Proof. intros Hs Ht. unfold download. rewrite Hs, Ht. reflexivity. Qed.

Ltac finish_failure Hn H1 :=
  first [rewrite final_fs_finish | unfold final_fs; cbn [List.last]]; split; [|reflexivity];
  apply temp_only_delete; [exact Hn|];
  first [ exact H1
        | apply Forall_last; [exact H1|]; apply copy_trace_temp_only; exact H1
        | apply temp_only_with_temp; exact H1 ].

(** A failed attempt leaves the file system and the getter as they were. *)
Lemma trydownload_failure_state (L : GoLib) (a : Attempt) (g : getter) (fs : FS)
    (e : FetchError) (g' : getter) (tr : list FS) :
  trydownload L a g fs = (Some e, g', tr) -> final_fs fs tr = fs /\ g' = g.
Proof.
  unfold trydownload. intros H.
  destruct (tmpl_exec L (urlt g) (now_url a)) as [url|];
    [|injection H as _ <- <-; split; reflexivity].
  destruct (tmp_suffix a) as [r|]; [|injection H as _ <- <-; split; reflexivity].
  destruct (fs !! temp_key L (Output g) r) eqn:Hn;
    [injection H as _ <- <-; split; reflexivity|].
  assert (H1 : temp_only fs (temp_key L (Output g) r)
                 (with_temp fs (temp_key L (Output g) r) [] (now_write a)))
    by (eexists; reflexivity).
  destruct (http a) as [|code status body].
  { injection H as _ <- <-. finish_failure Hn H1. }
  destruct (negb (code =? StatusOK)).
  { injection H as _ <- <-. finish_failure Hn H1. }
  destruct (copy_error_after a) as [k|].
  { injection H as _ <- <-. finish_failure Hn H1. }
  destruct (Z.of_nat (length body) <? MinimumSize g).
  { injection H as _ <- <-. finish_failure Hn H1. }
  destruct (close_error a).
  { injection H as _ <- <-. finish_failure Hn H1. }
  destruct (rename_error a).
  { injection H as _ <- <-. finish_failure Hn H1. }
  discriminate.
Qed.

(** Claim C3.  When [trydownload] returns an error, at whatever stage,
    the output file is exactly as before (indeed the whole file system is,
    the temp file being removed), [lastSuccess] is unchanged, and so is it
    after the enclosing [download]. *)
Theorem trydownload_failure_unchanged (L : GoLib) (a : Attempt) (g : getter) (fs : FS)
    (e : FetchError) (g' : getter) (tr : list FS) :
  trydownload L a g fs = (Some e, g', tr) ->
  final_fs fs tr !! path_key (Output g) = fs !! path_key (Output g)
  /\ lastSuccess g' = lastSuccess g
  /\ final_fs fs (snd (download L a g fs)) = fs
  /\ lastSuccess (fst (download L a g fs)) = lastSuccess g.
Proof.
  intros H. destruct (trydownload_failure_state L a g fs e g' tr H) as [Hfs Hg].
  rewrite Hfs, Hg. split; [reflexivity|]. split; [reflexivity|].
  unfold download. destruct (should L g (now_should a)); cbn [negb]; [|split; reflexivity].
  rewrite H. cbn [fst snd]. rewrite report_lastSuccess, Hfs, Hg. split; reflexivity.
Qed.

(** A successful attempt: the getter records the success and the output
    file holds the body, the rest of the file system being unchanged. *)
Lemma trydownload_success_state (L : GoLib) (a : Attempt) (g : getter) (fs : FS)
    (url r status : string) (body : list Byte.byte) :
  tmpl_exec L (urlt g) (now_url a) = Some url ->
  tmp_suffix a = Some r ->
  fs !! temp_key L (Output g) r = None ->
  http a = HttpResponse StatusOK status body ->
  copy_error_after a = None ->
  MinimumSize g <= Z.of_nat (length body) ->
  close_error a = false ->
  rename_error a = false ->
  exists tr, trydownload L a g fs = (None, set_lastSuccess g (now_success a), tr)
    /\ final_fs fs tr = <[path_key (Output g) := mkFile body (now_write a)]> fs.
Proof.
  intros Hu Hr Hn Hh Hc Hm Hcl Hrn.
  assert (Hlt : (Z.of_nat (length body) <? MinimumSize g) = false) by (apply Z.ltb_ge; exact Hm).
  unfold trydownload. rewrite Hu, Hr, Hn, Hh, Z.eqb_refl, Hc, Hlt, Hcl, Hrn.
  cbv zeta. eexists. split; [reflexivity|].
  rewrite final_fs_finish.
  rewrite delete_insert_ne by (apply temp_key_ne).
  rewrite delete_delete_eq.
  rewrite (temp_only_delete fs) by
    (first [exact Hn | apply temp_only_with_temp; eexists; reflexivity]).
  reflexivity.
Qed.

(** Claim C4.  When the URL renders, the temp file is created, the GET
    answers 200 with a body of at least [MinimumSize] bytes, and the copy,
    the close and the rename succeed: [trydownload] returns no error,
    [lastSuccess] becomes the current time, the output file holds exactly
    the body (the temp file renamed onto it, nothing else changed), and
    the enclosing [download] clears [failSince] and sets the gauge to 0. *)
Theorem trydownload_success (L : GoLib) (a : Attempt) (g : getter) (fs : FS)
    (url r status : string) (body : list Byte.byte) :
  tmpl_exec L (urlt g) (now_url a) = Some url ->
  tmp_suffix a = Some r ->
  fs !! temp_key L (Output g) r = None ->
  http a = HttpResponse StatusOK status body ->
  copy_error_after a = None ->
  MinimumSize g <= Z.of_nat (length body) ->
  close_error a = false ->
  rename_error a = false ->
  fst (fst (trydownload L a g fs)) = None
  /\ lastSuccess (snd (fst (trydownload L a g fs))) = now_success a
  /\ final_fs fs (snd (trydownload L a g fs))
     = <[path_key (Output g) := mkFile body (now_write a)]> fs
  /\ final_fs fs (snd (trydownload L a g fs)) !! path_key (Output g)
     = Some (mkFile body (now_write a))
  /\ (should L g (now_should a) = true ->
      fst (download L a g fs) = set_fail (set_lastSuccess g (now_success a)) zero_time 0
      /\ failSince (fst (download L a g fs)) = zero_time
      /\ failGauge (fst (download L a g fs)) = 0
      /\ final_fs fs (snd (download L a g fs))
         = <[path_key (Output g) := mkFile body (now_write a)]> fs).
Proof.
  intros Hu Hr Hn Hh Hc Hm Hcl Hrn.
  destruct (trydownload_success_state L a g fs url r status body Hu Hr Hn Hh Hc Hm Hcl Hrn)
    as [tr [Ht Hfs]].
  rewrite Ht. cbn [fst snd]. rewrite Hfs.
  split; [reflexivity|]. split; [reflexivity|]. split; [reflexivity|].
  split; [apply lookup_insert_eq|].
  intros Hs. rewrite (download_attempted L a g fs _ _ _ Hs Ht). cbn [fst snd].
  rewrite Hfs. repeat apply conj; reflexivity.
Qed.

(** Every failed attempt is reported the same way, whatever its error. *)
Lemma download_failure (L : GoLib) (a : Attempt) (g : getter) (fs : FS) e g' tr :
  should L g (now_should a) = true ->
  trydownload L a g fs = (Some e, g', tr) ->
  download L a g fs = (report g' false (now_fail_since a) (now_fail_gauge a), tr).
Proof. intros Hs Ht. apply (download_attempted L a g fs _ _ _ Hs Ht). Qed.

(** Claim C6.  When the GET completes with a status other than 200,
    [trydownload] fails with an error carrying the status code and text;
    the temp file is created empty and removed without a byte written, the
    file system (so the output file) ends as it began, and [download]
    reports it as it reports any failed attempt. *)
Theorem trydownload_non_ok (L : GoLib) (a : Attempt) (g : getter) (fs : FS)
    (url r status : string) (code : Z) (body : list Byte.byte) :
  tmpl_exec L (urlt g) (now_url a) = Some url ->
  tmp_suffix a = Some r ->
  fs !! temp_key L (Output g) r = None ->
  http a = HttpResponse code status body ->
  code <> StatusOK ->
  trydownload L a g fs
    = (Some (EStatus code status), g,
       [fs; with_temp fs (temp_key L (Output g) r) [] (now_write a); fs])
  /\ (should L g (now_should a) = true ->
      download L a g fs
      = (report g false (now_fail_since a) (now_fail_gauge a),
         [fs; with_temp fs (temp_key L (Output g) r) [] (now_write a); fs])).
Proof.
  intros Hu Hr Hn Hh Hne.
  assert (Ht : trydownload L a g fs
    = (Some (EStatus code status), g,
       [fs; with_temp fs (temp_key L (Output g) r) [] (now_write a); fs])).
  { unfold trydownload. rewrite Hu, Hr, Hn, Hh.
    apply Z.eqb_neq in Hne. rewrite Hne. cbv zeta.
    unfold with_temp. rewrite delete_insert_id by exact Hn. reflexivity. }
  split; [exact Ht|]. intros Hs. exact (download_failure L a g fs _ _ _ Hs Ht).
Qed.

(** What claim C8 says of one file-system state a reader may observe: the
    output file is absent or holds at least [MinimumSize] bytes. *)
Definition output_as_claimed (g : getter) (m : FS) : Prop :=
  m !! path_key (Output g) = None
  \/ exists f, m !! path_key (Output g) = Some f /\ MinimumSize g <= Z.of_nat (length (data f)).

(** What the code guarantees of each state: the output file is as it was
    before the attempt, or the attempt succeeds and the file holds the
    complete body of a 200 response, of at least [MinimumSize] bytes. *)
Definition output_old_or_new (a : Attempt) (g : getter) (fs : FS) (e : option FetchError)
    (m : FS) : Prop :=
  m !! path_key (Output g) = fs !! path_key (Output g)
  \/ (e = None /\ exists status body, http a = HttpResponse StatusOK status body
        /\ MinimumSize g <= Z.of_nat (length body)
        /\ m !! path_key (Output g) = Some (mkFile body (now_write a))).

Ltac old_state Hold Hdel H1 :=
  first [ left; reflexivity
        | apply Hold; exact H1
        | apply Hold; apply temp_only_with_temp; exact H1
        | apply Hdel; first [ exact H1
                            | apply temp_only_with_temp; exact H1
                            | apply Forall_last; [exact H1|];
                              apply copy_trace_temp_only; exact H1 ]
        | eapply Forall_impl; [apply copy_trace_temp_only; exact H1|exact Hold] ].

Lemma trydownload_states (L : GoLib) (a : Attempt) (g : getter) (fs : FS)
    (e : option FetchError) (g' : getter) (tr : list FS) :
  trydownload L a g fs = (e, g', tr) -> Forall (output_old_or_new a g fs e) tr.
Proof.
  unfold trydownload. intros H.
  destruct (tmpl_exec L (urlt g) (now_url a)) as [url|];
    [|injection H as <- <- <-; repeat constructor; left; reflexivity].
  destruct (tmp_suffix a) as [r|];
    [|injection H as <- <- <-; repeat constructor; left; reflexivity].
  destruct (fs !! temp_key L (Output g) r) eqn:Hn;
    [injection H as <- <- <-; repeat constructor; left; reflexivity|].
  set (tk := temp_key L (Output g) r) in *.
  assert (H1 : temp_only fs tk (with_temp fs tk [] (now_write a))) by (eexists; reflexivity).
  assert (Hold : forall m, temp_only fs tk m -> output_old_or_new a g fs e m)
    by (intros m Hm; left; apply (temp_only_output L fs m (Output g) r Hm)).
  assert (Hdel : forall m, temp_only fs tk m -> output_old_or_new a g fs e (delete tk m))
    by (intros m Hm; left; rewrite (temp_only_delete fs m tk Hn Hm); reflexivity).
  destruct (http a) as [|code status body] eqn:Hh.
  { injection H as <- <- <-. rewrite ?Forall_cons, ?Forall_app, ?Forall_singleton.
    repeat split; old_state Hold Hdel H1. }
  destruct (negb (code =? StatusOK)) eqn:Hc.
  { injection H as <- <- <-. rewrite ?Forall_cons, ?Forall_app, ?Forall_singleton.
    repeat split; old_state Hold Hdel H1. }
  destruct (copy_error_after a) as [k|].
  { injection H as <- <- <-. rewrite ?Forall_cons, ?Forall_app, ?Forall_singleton.
    repeat split; old_state Hold Hdel H1. }
  destruct (Z.of_nat (length body) <? MinimumSize g) eqn:Hm.
  { injection H as <- <- <-. rewrite ?Forall_cons, ?Forall_app, ?Forall_singleton.
    repeat split; old_state Hold Hdel H1. }
  destruct (close_error a).
  { injection H as <- <- <-. rewrite ?Forall_cons, ?Forall_app, ?Forall_singleton.
    repeat split; old_state Hold Hdel H1. }
  destruct (rename_error a).
  { injection H as <- <- <-. rewrite ?Forall_cons, ?Forall_app, ?Forall_singleton.
    repeat split; old_state Hold Hdel H1. }
  injection H as <- <- <-.
  apply negb_false_iff, Z.eqb_eq in Hc. subst code.
  apply Z.ltb_ge in Hm.
  assert (Hnew : forall m, m !! path_key (Output g) = Some (mkFile body (now_write a)) ->
                 output_old_or_new a g fs None m)
    by (intros m Hm'; right; split; [reflexivity|]; exists status, body; repeat split; assumption).
  rewrite ?Forall_cons, ?Forall_app, ?Forall_singleton.
  repeat split; try (old_state Hold Hdel H1); apply Hnew.
  - apply lookup_insert_eq.
  - rewrite lookup_delete_ne by (apply temp_key_ne). apply lookup_insert_eq.
Qed.

Lemma trydownload_trace_head (L : GoLib) (a : Attempt) (g : getter) (fs : FS) :
  exists rest, snd (trydownload L a g fs) = fs :: rest.
Proof.
  unfold trydownload.
  destruct (tmpl_exec L (urlt g) (now_url a)); [|eexists; reflexivity].
  destruct (tmp_suffix a) as [r|]; [|eexists; reflexivity].
  destruct (fs !! temp_key L (Output g) r); [eexists; reflexivity|].
  destruct (http a) as [|code status body]; [eexists; reflexivity|].
  destruct (negb (code =? StatusOK)); [eexists; reflexivity|].
  destruct (copy_error_after a); [eexists; reflexivity|].
  destruct (Z.of_nat (length body) <? MinimumSize g); [eexists; reflexivity|].
  destruct (close_error a); [eexists; reflexivity|].
  destruct (rename_error a); eexists; reflexivity.
Qed.

(** The test's URL, an output path, a 100-byte minimum, a 3-byte file
    that was at the output path before the program ran, and attempts
    whose every step succeeds except as [h] says. *)
Definition test_url : string := "http://host.example/foo".

Definition target100 : getter :=
  mkGetter test_url "/tmp/x" "" "" "" 100 "1h" test_url Hour zero_time 0 zero_time.

Definition bytes (n : nat) : list Byte.byte := repeat Byte.x41 n.

Definition fs_old : FS := {[ ("/tmp/"%string, "x"%string) := mkFile (bytes 3) zero_time ]}.

Definition attempt_with (h : HttpResult) : Attempt :=
  mkAttempt noon_aug28 noon_aug28 (Some "123"%string) h None false false
    noon_aug28 noon_aug28 noon_aug28 noon_aug28.

Definition resp503 : HttpResult := HttpResponse 503 "503 Service Unavailable" [].
Definition resp200 (n : nat) : HttpResult := HttpResponse 200 "200 OK" (bytes n).

(** Claim C8 (counterexample).  A 3-byte file the program did not
    install, at the output path of a target with [MinimumSize] 100: during
    an attempt that fails with 503, a reader sees that 3-byte file, neither
    an absent file nor one of at least [MinimumSize] bytes. *)
Lemma output_atomic_counterexample :
  ~ Forall (output_as_claimed target100) (snd (trydownload plain_lib (attempt_with resp503) target100 fs_old)).
Proof.
  destruct (trydownload_trace_head plain_lib (attempt_with resp503) target100 fs_old) as [rest ->].
  intros H. apply Forall_cons in H as [H _].
  destruct H as [H|[f [Hf Hs]]]; [vm_compute in H; discriminate|].
  vm_compute in Hf. injection Hf as <-. vm_compute in Hs. apply Hs. reflexivity.
Qed.

(** Claim C8 (amended).  Every file-system state an attempt goes through,
    as a concurrent reader may see it (or as a crash may leave it), has at
    the output path either what was there before the attempt or, once the
    single rename of a successful attempt is done, the complete body of at
    least [MinimumSize] bytes.  Hence if the output file was absent or of
    at least [MinimumSize] bytes before (as after any install with the
    same [MinimumSize]), every state satisfies that too. *)
Theorem trydownload_output_atomic (L : GoLib) (a : Attempt) (g : getter) (fs : FS)
    (e : option FetchError) (g' : getter) (tr : list FS) :
  trydownload L a g fs = (e, g', tr) ->
  Forall (output_old_or_new a g fs e) tr
  /\ (output_as_claimed g fs -> Forall (output_as_claimed g) tr).
Proof.
  intros H. pose proof (trydownload_states L a g fs e g' tr H) as Hall.
  split; [exact Hall|]. intros Hfs.
  eapply Forall_impl; [exact Hall|]. intros m [Hold|[_ [status [body [_ [Hmin Hm]]]]]].
  - unfold output_as_claimed. rewrite Hold. exact Hfs.
  - right. exists (mkFile body (now_write a)). split; [exact Hm|exact Hmin].
Qed.

(** A 503 answer and a 150-byte 200 answer for [target100]. *)
Definition try503 := trydownload plain_lib (attempt_with resp503) target100 fs_old.
Definition try200 := trydownload plain_lib (attempt_with (resp200 150)) target100 fs_old.

Lemma try503_eq :
  try503 = (Some (EStatus 503 "503 Service Unavailable"), target100, snd try503).
Proof. vm_compute. reflexivity. Qed.

Lemma trydownload_failure_unchanged_witness :
  try503 = (Some (EStatus 503 "503 Service Unavailable"), target100, snd try503)
  /\ final_fs fs_old (snd try503) !! path_key (Output target100)
     = fs_old !! path_key (Output target100).
Proof.
  assert (H : trydownload plain_lib (attempt_with resp503) target100 fs_old
              = (Some (EStatus 503 "503 Service Unavailable"), target100, snd try503))
    by (vm_compute; reflexivity).
  split; [exact H|].
  exact (proj1 (trydownload_failure_unchanged _ _ _ _ _ _ _ H)).
Defined.

Lemma trydownload_success_witness :
  final_fs fs_old (snd try200) !! path_key (Output target100) = Some (mkFile (bytes 150) noon_aug28)
  /\ should plain_lib target100 noon_aug28 = true
  /\ failSince (fst (download plain_lib (attempt_with (resp200 150)) target100 fs_old)) = zero_time.
Proof.
  assert (Hs : should plain_lib target100 noon_aug28 = true) by (vm_compute; reflexivity).
  assert (Hn : fs_old !! temp_key plain_lib (Output target100) "123" = None)
    by (vm_compute; reflexivity).
  assert (Hm : MinimumSize target100 <= Z.of_nat (length (bytes 150)))
    by (vm_compute; discriminate).
  destruct (trydownload_success plain_lib (attempt_with (resp200 150)) target100 fs_old
              test_url "123" "200 OK" (bytes 150) eq_refl eq_refl Hn eq_refl eq_refl Hm
              eq_refl eq_refl)
    as [_ [_ [_ [Hl Hd]]]].
  split; [exact Hl|]. split; [exact Hs|]. exact (proj1 (proj2 (Hd Hs))).
Defined.

Lemma trydownload_non_ok_witness :
  try503 = (Some (EStatus 503 "503 Service Unavailable"), target100,
            [fs_old; with_temp fs_old (temp_key plain_lib "/tmp/x" "123") [] noon_aug28; fs_old]).
Proof.
  assert (Hn : fs_old !! temp_key plain_lib (Output target100) "123" = None)
    by (vm_compute; reflexivity).
  assert (Hc : 503 <> StatusOK) by discriminate.
  exact (proj1 (trydownload_non_ok plain_lib (attempt_with resp503) target100 fs_old
                  test_url "123" "503 Service Unavailable" 503 [] eq_refl eq_refl Hn eq_refl Hc)).
Defined.

Lemma trydownload_output_atomic_witness :
  try503 = (Some (EStatus 503 "503 Service Unavailable"), target100, snd try503)
  /\ Forall (output_old_or_new (attempt_with resp503) target100 fs_old
               (Some (EStatus 503 "503 Service Unavailable"))) (snd try503).
Proof.
  assert (H : trydownload plain_lib (attempt_with resp503) target100 fs_old
              = (Some (EStatus 503 "503 Service Unavailable"), target100, snd try503))
    by (vm_compute; reflexivity).
  split; [exact H|].
  exact (proj1 (trydownload_output_atomic _ _ _ _ _ _ _ H)).
Defined.

(* ------------------------------------------------------------------ *)
(** ** Failure streaks *)

(** Consecutive elements related by [R]. *)
Fixpoint chain {A} (R : A -> A -> Prop) (l : list A) : Prop :=
  match l with
  | x :: ((y :: _) as l') => R x y /\ chain R l'
  | _ => True
  end.

(** Two [time.Now()] readings, the second no earlier on the monotonic
    clock. *)
Definition mono_le (t u : Time) : Prop :=
  exists m n, mono t = Some m /\ mono u = Some n /\ m <= n.

(** The getters after each of a run of failed attempts, each given by the
    [time.Now()] readings of [failSince] and of the gauge. *)
Fixpoint streak (g : getter) (obs : list (Time * Time)) : list getter :=
  match obs with
  | [] => []
  | (ts, tg) :: obs' => let g' := report g false ts tg in g' :: streak g' obs'
  end.

Lemma streak_from (g : getter) (s1 : Time) (obs : list (Time * Time)) :
  failSince g = s1 -> IsZero s1 = false ->
  Forall (fun g' => failSince g' = s1) (streak g obs)
  /\ map failGauge (streak g obs) = map (fun o => Sub (snd o) s1) obs.
Proof.
  revert g. induction obs as [|[ts tg] obs IH]; intros g Hg Hz; [split; [constructor|reflexivity]|].
  assert (Hr : report g false ts tg = set_fail g s1 (Sub tg s1))
    by (unfold report; rewrite Hg, Hz; reflexivity).
  cbn [streak map]. rewrite Hr.
  destruct (IH (set_fail g s1 (Sub tg s1)) eq_refl Hz) as [IH1 IH2].
  split; [constructor; [reflexivity|exact IH1]|].
  cbn [failGauge set_fail snd]. f_equal. exact IH2.
Qed.

Lemma last_nonempty {A} (x : A) (l : list A) (d d' : A) :
  List.last (x :: l) d = List.last (x :: l) d'.
Proof.
  revert x. induction l as [|y l IH]; intros x; [reflexivity|].
  change (List.last (y :: l) d = List.last (y :: l) d'). apply IH.
Qed.

Lemma last_map_comm {A B} (f : A -> B) (l : list A) (d : A) :
  List.last (map f l) (f d) = f (List.last l d).
Proof.
  induction l as [|x l IH]; [reflexivity|].
  destruct l as [|y l]; [reflexivity|]. exact IH.
Qed.

Lemma chain_Sub (s1 : Time) (m0 : Z) (l : list Time) :
  mono s1 = Some m0 -> chain mono_le l -> chain Z.le (map (fun t => Sub t s1) l).
Proof.
  intros Hs. induction l as [|x l IH]; [trivial|].
  destruct l as [|y l]; [trivial|].
  intros [[mx [my [Hx [Hy Hle]]]] Hc]. split; [|apply IH; exact Hc].
  unfold Sub, elapsed, clamp_duration. rewrite Hx, Hy, Hs. lia.
Qed.

(** Claim C5.  A run of failed attempts starting with [failSince] unset
    (after a success or at startup): the first failure sets [failSince] to
    its reading [t1] (a [time.Now()], never the zero time) and no later
    failure of the run changes it; at each failure the gauge is
    [now - failSince] for that failure's gauge reading [now]; with the
    readings in monotonic-clock order the gauge never decreases and is
    [tN - t1] at the last failure; the next success clears [failSince] and
    the gauge. *)
Theorem failure_streak (g : getter) (s1 g1 : Time) (obs : list (Time * Time)) (ts tg : Time) :
  IsZero (failSince g) = true ->
  IsZero s1 = false ->
  Forall (fun g' => failSince g' = s1) (streak g ((s1, g1) :: obs))
  /\ map failGauge (streak g ((s1, g1) :: obs)) = map (fun o => Sub (snd o) s1) ((s1, g1) :: obs)
  /\ (chain mono_le (s1 :: g1 :: map snd obs) ->
      chain Z.le (map failGauge (streak g ((s1, g1) :: obs))))
  /\ failGauge (List.last (streak g ((s1, g1) :: obs)) g)
     = Sub (snd (List.last ((s1, g1) :: obs) (s1, g1))) s1
  /\ failSince (report (List.last (streak g ((s1, g1) :: obs)) g) true ts tg) = zero_time
  /\ failGauge (report (List.last (streak g ((s1, g1) :: obs)) g) true ts tg) = 0.
Proof.
  intros Hg Hz.
  assert (Hr : report g false s1 g1 = set_fail g s1 (Sub g1 s1))
    by (unfold report; rewrite Hg; reflexivity).
  assert (Hst : streak g ((s1, g1) :: obs)
                = set_fail g s1 (Sub g1 s1) :: streak (set_fail g s1 (Sub g1 s1)) obs)
    by (cbn [streak]; rewrite Hr; reflexivity).
  destruct (streak_from (set_fail g s1 (Sub g1 s1)) s1 obs eq_refl Hz) as [H1 H2].
  assert (Hmap : map failGauge (streak g ((s1, g1) :: obs))
                 = map (fun o => Sub (snd o) s1) ((s1, g1) :: obs))
    by (rewrite Hst; cbn [map]; f_equal; exact H2).
  split; [rewrite Hst; constructor; [reflexivity|exact H1]|].
  split; [exact Hmap|].
  split.
  { intros [[m0 [m1 [Hm0 [Hm1 _]]]] Hc]. rewrite Hmap.
    apply (chain_Sub s1 m0 (g1 :: map snd obs) Hm0) in Hc.
    cbn [map] in Hc |- *. rewrite map_map in Hc. exact Hc. }
  split.
  { rewrite Hst.
    rewrite (last_nonempty _ _ g (set_fail g s1 (Sub g1 s1))).
    rewrite <- (last_map_comm failGauge). rewrite <- Hst, Hmap.
    change (failGauge (set_fail g s1 (Sub g1 s1))) with ((fun o => Sub (snd o) s1) (s1, g1)).
    rewrite last_map_comm. reflexivity. }
  split; reflexivity.
Qed.

(** Readings of [time.Now()] [k] seconds after [noon_aug28]. *)
Definition tick (k : Z) : Time :=
  mkTime (wall noon_aug28 + k * Second) (Some (5000000000 + k * Second)) 0.

Lemma failure_streak_witness :
  IsZero (failSince target100) = true /\ IsZero (tick 0) = false
  /\ failGauge (List.last (streak target100 [(tick 0, tick 1); (tick 60, tick 61); (tick 120, tick 121)])
                  target100) = Sub (tick 121) (tick 0).
Proof.
  assert (H1 : IsZero (failSince target100) = true) by reflexivity.
  assert (H2 : IsZero (tick 0) = false) by (vm_compute; reflexivity).
  split; [exact H1|]. split; [exact H2|].
  exact (proj1 (proj2 (proj2 (proj2 (failure_streak target100 (tick 0) (tick 1)
           [(tick 60, tick 61); (tick 120, tick 121)] (tick 180) (tick 180) H1 H2))))).
Defined.

(* ------------------------------------------------------------------ *)
(** ** Configuration errors *)

Definition is_error {E A} (r : E + A) : bool :=
  match r with inl _ => true | inr _ => false end.

Definition is_some {A} (o : option A) : bool :=
  match o with Some _ => true | None => false end.

(** The configuration errors claim C7 lists: the template does not parse,
    its sample expansion fails, the URL does not parse or has no scheme,
    NotBefore or NotAfter is set and is not an "HH:MM" time of day, TTL is
    set and is not a duration. *)
Definition listed_setup_errors (L : GoLib) (now : Time) (g0 : getter) : bool :=
  negb (tmpl_parse L (URL g0))
  || match tmpl_exec L (URL g0) now with
     | None => true
     | Some u => match url_scheme L u with
                 | None => true
                 | Some sc => String.eqb sc ""
                 end
     end
  || (negb (String.eqb (NotBefore g0) "") && negb (is_some (parse_clock (NotBefore g0))))
  || (negb (String.eqb (NotAfter g0) "") && negb (is_some (parse_clock (NotAfter g0))))
  || (negb (String.eqb (TTL g0) "") && negb (is_some (parse_duration L (TTL g0)))).

Lemma normalise_clock_error (s : string) :
  is_error (normalise_clock s) = negb (String.eqb s "") && negb (is_some (parse_clock s)).
Proof.
  unfold normalise_clock. destruct (parse_clock s) as [[h m]|]; simpl.
  - rewrite andb_false_r. reflexivity.
  - destruct (String.eqb s ""); reflexivity.
Qed.

Lemma setup_all_error (L : GoLib) (fs : FS) (now : Time) (gs : list getter) :
  is_error (setup_all L fs now gs) = existsb (fun g => is_error (setup L fs now g)) gs.
Proof.
  induction gs as [|g gs IH]; [reflexivity|]. simpl.
  destruct (setup L fs now g); [reflexivity|]. simpl. rewrite <- IH.
  destruct (setup_all L fs now gs); reflexivity.
Qed.

(** A target whose output path is the single byte 0xFF, not UTF-8. *)
Definition bad_label_cfg : getter :=
  config test_url (String (ascii_of_nat 255) EmptyString) "" "" "" 0 "1h".

(** Claim C7 (counterexample).  [setup] also fails when the Prometheus
    gauge cannot be obtained for the output path, which none of the listed
    conditions covers: a target whose output path is not valid UTF-8 and
    whose other fields are all valid. *)
Lemma setup_errors_counterexample :
  is_error (setup plain_lib ∅ noon_aug28 bad_label_cfg) = true
  /\ listed_setup_errors plain_lib noon_aug28 bad_label_cfg = false.
Proof. split; vm_compute; reflexivity. Qed.

(** Claim C7 (amended).  [setup] fails exactly when one of the listed
    conditions holds or the gauge [GetMetricWithLabelValues(Output)]
    fails (the output path is not valid UTF-8); and [main] sets every
    target up before any [run] starts, failing if any target fails. *)
Theorem setup_errors (L : GoLib) (fs : FS) (now : Time) (g0 : getter) (gs : list getter) :
  is_error (setup L fs now g0)
    = listed_setup_errors L now g0 || negb (label_value_ok (Output g0))
  /\ is_error (setup_all L fs now gs) = existsb (fun g => is_error (setup L fs now g)) gs.
Proof.
  split; [|apply setup_all_error].
  unfold setup, listed_setup_errors. rewrite <- !normalise_clock_error.
  destruct (tmpl_parse L (URL g0)); simpl; [|reflexivity].
  destruct (tmpl_exec L (URL g0) now) as [u|]; [|reflexivity].
  destruct (url_scheme L u) as [sc|]; [|reflexivity].
  destruct (String.eqb sc ""); [reflexivity|]. simpl.
  destruct (normalise_clock (NotBefore g0)); [reflexivity|]. simpl.
  destruct (normalise_clock (NotAfter g0)); [reflexivity|]. simpl.
  destruct (String.eqb (TTL g0) ""); simpl.
  - destruct (label_value_ok (Output g0)); reflexivity.
  - destruct (parse_duration L (TTL g0)); simpl; [|reflexivity].
    destruct (label_value_ok (Output g0)); reflexivity.
Qed.

(* ------------------------------------------------------------------ *)
(** ** The weekday rule *)

(** The third check of [should]: it passes unless [Weekdays] is set and
    does not contain the day's lowercase abbreviation after a space. *)
Definition weekday_rule (L : GoLib) (g : getter) (t : Time) : bool :=
  negb (negb (String.eqb (Weekdays g) "")
        && negb (Contains (Weekdays g) (" " ++ ToLower L (format_Mon t))%string)).

Lemma window_rules_weekday (L : GoLib) (g : getter) (t : Time) :
  window_rules L g t
  = negb (negb (String.eqb (NotBefore g) "") && (Compare (format_clock t) (NotBefore g) <? 0))
    && negb (negb (String.eqb (NotAfter g) "") && (Compare (format_clock t) (NotAfter g) >? 0))
    && weekday_rule L g t.
Proof. reflexivity. Qed.

(** The configured weekday setting matched as a lowercase, space-prefixed
    string, without trimming. *)
Definition weekday_as_claimed (L : GoLib) (W : string) (t : Time) : bool :=
  Contains (" " ++ ToLower L W)%string (" " ++ ToLower L (format_Mon t))%string.

Definition tab_mon_cfg : getter :=
  config test_url "/tmp/x" "" "" (String (ascii_of_nat 9) "Mon") 0 "1h".

(** Monday, August 26 (two days before the Wednesday [aug28]), noon UTC. *)
Definition monday_noon : Time := at_local (aug28 - 2) 12 0 0.

Example monday_noon_is_Mon : format_Mon monday_noon = "Mon"%string.
Proof. vm_compute. reflexivity. Qed.

(** A space-prefixed string is never empty. *)
Lemma append_space_ne (s : string) : String.eqb (" " ++ s)%string "" = false.
Proof. reflexivity. Qed.

(** Claim C9 (counterexample).  The setting "<TAB>Mon" is trimmed by
    [setup] to "Mon", so the rule passes on a Monday, although
    " <TAB>mon" does not contain " mon". *)
Lemma weekday_rule_counterexample :
  match setup plain_lib ∅ noon_aug28 tab_mon_cfg with
  | inr g => weekday_rule plain_lib g monday_noon
  | inl _ => false
  end = true
  /\ String.eqb (Weekdays tab_mon_cfg) "" = false
  /\ weekday_as_claimed plain_lib (Weekdays tab_mon_cfg) monday_noon = false.
Proof. repeat apply conj; vm_compute; reflexivity. Qed.

(** Claim C9 (amended).  After [setup], the weekday rule of [should]
    passes at time [t] exactly when the configured setting, with leading
    and trailing white space removed, is empty, or when that trimmed
    setting, lowercased and prefixed with a space, contains a space
    followed by the lowercase abbreviation of [t]'s weekday. *)
Theorem setup_weekday_rule (L : GoLib) (fs : FS) (now t : Time) (g0 g : getter) :
  setup L fs now g0 = inr g ->
  weekday_rule L g t
  = String.eqb (TrimSpace L (Weekdays g0)) ""
    || Contains (" " ++ ToLower L (TrimSpace L (Weekdays g0)))%string
                (" " ++ ToLower L (format_Mon t))%string.
Proof.
  intros H. destruct (setup_ok_fields L fs now g0 g H) as (_ & _ & Hwd & _).
  unfold weekday_rule. rewrite Hwd. cbv zeta.
  destruct (String.eqb (TrimSpace L (Weekdays g0)) "") eqn:E.
  - rewrite E. reflexivity.
  - rewrite append_space_ne. simpl. apply Bool.negb_involutive.
Qed.

Lemma setup_weekday_rule_witness :
  setup plain_lib ∅ noon_aug28 tab_mon_cfg
    = inr (mkGetter test_url "/tmp/x" "" "" " mon" 0 "1h" test_url Hour zero_time 0 zero_time)
  /\ weekday_rule plain_lib
       (mkGetter test_url "/tmp/x" "" "" " mon" 0 "1h" test_url Hour zero_time 0 zero_time)
       monday_noon
     = String.eqb (TrimSpace plain_lib (Weekdays tab_mon_cfg)) ""
       || Contains (" " ++ ToLower plain_lib (TrimSpace plain_lib (Weekdays tab_mon_cfg)))%string
                   (" " ++ ToLower plain_lib (format_Mon monday_noon))%string.
Proof.
  assert (Hs : setup plain_lib ∅ noon_aug28 tab_mon_cfg
    = inr (mkGetter test_url "/tmp/x" "" "" " mon" 0 "1h" test_url Hour zero_time 0 zero_time))
    by (vm_compute; reflexivity).
  split; [exact Hs|].
  exact (setup_weekday_rule plain_lib ∅ noon_aug28 monday_noon tab_mon_cfg _ Hs).
Defined.

(** Matching is case-insensitive for ASCII settings, and a longer word
    such as "MONDAY" enables its day. *)
Example weekday_rule_examples :
  weekday_rule plain_lib
    (mkGetter test_url "/tmp/x" "" "" " monday" 0 "1h" test_url Hour zero_time 0 zero_time)
    monday_noon = true
  /\ setup plain_lib ∅ noon_aug28 (config test_url "/tmp/x" "" "" "MONDAY" 0 "1h")
     = inr (mkGetter test_url "/tmp/x" "" "" " monday" 0 "1h" test_url Hour zero_time 0 zero_time)
  /\ weekday_rule plain_lib
       (mkGetter test_url "/tmp/x" "" "" " monday" 0 "1h" test_url Hour zero_time 0 zero_time)
       noon_aug28 = false.
Proof. repeat apply conj; vm_compute; reflexivity. Qed.

(* ------------------------------------------------------------------ *)
(** ** An empty TTL *)

(** The same target with its [TTL] setting replaced. *)
Definition with_TTL (g : getter) (s : string) : getter :=
  mkGetter (URL g) (Output g) (NotBefore g) (NotAfter g) (Weekdays g)
    (MinimumSize g) s (urlt g) (ttl g) (lastSuccess g) (failGauge g) (failSince g).

(** Claim C10.  A target whose [TTL] setting is empty never fails [setup]
    with the TTL error; when [setup] succeeds its ttl is one hour; and it
    fails [setup] exactly when the same target with any parseable TTL
    setting does, so the empty setting is not a configuration error. *)
Theorem setup_default_ttl (L : GoLib) (fs : FS) (now : Time) (g0 : getter) (s : string) (d : Z) :
  TTL g0 = ""%string ->
  parse_duration L s = Some d ->
  setup L fs now g0 <> inl ETTL
  /\ (forall g, setup L fs now g0 = inr g -> ttl g = Hour)
  /\ is_error (setup L fs now g0) = is_error (setup L fs now (with_TTL g0 s)).
Proof.
  intros Httl Hd. unfold setup, with_TTL. cbn [URL Output NotBefore NotAfter Weekdays TTL].
  rewrite Httl. cbn [String.eqb].
  destruct (tmpl_parse L (URL g0)); simpl; [|split; [discriminate|split; [discriminate|reflexivity]]].
  destruct (tmpl_exec L (URL g0) now) as [u|];
    [|split; [discriminate|split; [discriminate|reflexivity]]].
  destruct (url_scheme L u) as [sc|]; [|split; [discriminate|split; [discriminate|reflexivity]]].
  destruct (String.eqb sc ""); [split; [discriminate|split; [discriminate|reflexivity]]|].
  destruct (normalise_clock (NotBefore g0));
    [split; [discriminate|split; [discriminate|reflexivity]]|].
  destruct (normalise_clock (NotAfter g0));
    [split; [discriminate|split; [discriminate|reflexivity]]|].
  destruct (String.eqb s "") eqn:Es; [|rewrite Hd];
  (destruct (label_value_ok (Output g0)); simpl;
    [split; [discriminate|split; [intros g Hg; injection Hg as <-; reflexivity|reflexivity]]
    |split; [discriminate|split; [discriminate|reflexivity]]]).
Qed.

Definition no_ttl_cfg : getter := config test_url "/tmp/x" "" "" "" 0 "".

Lemma setup_default_ttl_witness :
  TTL no_ttl_cfg = ""%string /\ parse_duration plain_lib "90s" = Some (90 * Second)
  /\ setup plain_lib ∅ noon_aug28 no_ttl_cfg <> inl ETTL
  /\ (forall g, setup plain_lib ∅ noon_aug28 no_ttl_cfg = inr g -> ttl g = Hour)
  /\ is_error (setup plain_lib ∅ noon_aug28 no_ttl_cfg)
     = is_error (setup plain_lib ∅ noon_aug28 (with_TTL no_ttl_cfg "90s")).
Proof.
  assert (H1 : TTL no_ttl_cfg = ""%string) by reflexivity.
  assert (H2 : parse_duration plain_lib "90s" = Some (90 * Second)) by (vm_compute; reflexivity).
  split; [exact H1|]. split; [exact H2|].
  exact (setup_default_ttl plain_lib ∅ noon_aug28 no_ttl_cfg "90s" (90 * Second) H1 H2).
Defined.

(* ------------------------------------------------------------------ *)
(** ** The time-of-day rules *)

(** The minute of the day [t.Format("15:04")] shows. *)
Definition minute_of_day (t : Time) : Z := clock_hour t * 60 + clock_minute t.

(** The first two checks of [should] after the TTL rule. *)
Definition notbefore_rule (g : getter) (t : Time) : bool :=
  negb (negb (String.eqb (NotBefore g) "") && (Compare (format_clock t) (NotBefore g) <? 0)).

Definition notafter_rule (g : getter) (t : Time) : bool :=
  negb (negb (String.eqb (NotAfter g) "") && (Compare (format_clock t) (NotAfter g) >? 0)).

Lemma window_rules_split (L : GoLib) (g : getter) (t : Time) :
  window_rules L g t = notbefore_rule g t && notafter_rule g t && weekday_rule L g t.
Proof. reflexivity. Qed.

Lemma byte_digit (n : Z) : 0 <= n <= 9 -> byte_of (digit n) = 48 + n.
Proof.
  intros Hn. unfold byte_of, digit.
  rewrite nat_ascii_embedding by lia. lia.
Qed.

Lemma is_digit_digit (n : Z) : 0 <= n <= 9 -> is_digit (digit n) = true.
Proof.
  intros Hn. unfold is_digit. rewrite byte_digit by exact Hn.
  apply andb_true_iff. split; apply Z.leb_le; lia.
Qed.

Lemma digit_of_is_digit (c : ascii) :
  is_digit c = true -> 0 <= byte_of c - 48 <= 9 /\ c = digit (byte_of c - 48).
Proof.
  unfold is_digit. intros H. apply andb_true_iff in H as [H1 H2].
  apply Z.leb_le in H1. apply Z.leb_le in H2. split; [lia|].
  unfold digit, byte_of. rewrite <- (ascii_nat_embedding c) at 1. f_equal. lia.
Qed.

Lemma fmt2_digits (d1 d2 : Z) :
  0 <= d1 <= 9 -> 0 <= d2 <= 9 ->
  fmt2 (d1 * 10 + d2) = String (digit d1) (String (digit d2) EmptyString).
Proof.
  intros H1 H2. unfold fmt2.
  rewrite <- (Z.div_unique (d1 * 10 + d2) 10 d1 d2) by lia.
  rewrite <- (Z.mod_unique (d1 * 10 + d2) 10 d1 d2) by lia.
  reflexivity.
Qed.

Lemma fmt2_split (n : Z) :
  0 <= n < 100 ->
  fmt2 n = String (digit (n / 10)) (String (digit (n mod 10)) EmptyString)
  /\ 0 <= n / 10 <= 9 /\ 0 <= n mod 10 <= 9 /\ n = n / 10 * 10 + n mod 10.
Proof.
  intros Hn. split; [reflexivity|].
  pose proof (Z.div_mod n 10 ltac:(lia)). pose proof (Z.mod_pos_bound n 10 ltac:(lia)).
  assert (0 <= n / 10 < 10) by (split; [apply Z.div_pos|apply Z.div_lt_upper_bound]; lia).
  lia.
Qed.

Lemma clock_ranges (t : Time) : 0 <= clock_hour t < 24 /\ 0 <= clock_minute t < 60.
Proof.
  unfold clock_hour, clock_minute.
  pose proof (Z.mod_pos_bound (local_seconds t) 86400 ltac:(lia)).
  pose proof (Z.mod_pos_bound (local_seconds t) 3600 ltac:(lia)).
  split; split.
  - apply Z.div_pos; lia.
  - apply Z.div_lt_upper_bound; lia.
  - apply Z.div_pos; lia.
  - apply Z.div_lt_upper_bound; lia.
Qed.

(** [strings.Compare] on two "HH:MM" strings with fields below 100
    orders them as the numbers of minutes they denote. *)
Lemma Compare_clock (a b c d : Z) :
  0 <= a < 100 -> 0 <= b < 60 -> 0 <= c < 100 -> 0 <= d < 60 ->
  Compare (fmt2 a ++ ":" ++ fmt2 b)%string (fmt2 c ++ ":" ++ fmt2 d)%string
  = match Z.compare (a * 60 + b) (c * 60 + d) with Lt => -1 | Eq => 0 | Gt => 1 end.
Proof.
  intros Ha Hb Hc Hd.
  destruct (fmt2_split a ltac:(lia)) as (-> & Ha1 & Ha2 & Ea).
  destruct (fmt2_split b ltac:(lia)) as (-> & Hb1 & Hb2 & Eb).
  destruct (fmt2_split c ltac:(lia)) as (-> & Hc1 & Hc2 & Ec).
  destruct (fmt2_split d ltac:(lia)) as (-> & Hd1 & Hd2 & Ed).
  simpl. rewrite !byte_digit by assumption.
  repeat match goal with |- context [?x <? ?y] => destruct (Z.ltb_spec x y) end;
  destruct (Z.compare_spec (a * 60 + b) (c * 60 + d)); try reflexivity; lia.
Qed.

Ltac clock_result h m :=
  match goal with
  | |- (if (?x <? 24) && (?y <? 60) then _ else _) = _ =>
      replace x with h by lia; replace y with m by lia
  end;
  replace (h <? 24) with true by (symmetry; apply Z.ltb_lt; lia);
  replace (m <? 60) with true by (symmetry; apply Z.ltb_lt; lia);
  reflexivity.

Lemma parse_clock_fmt (h m : Z) :
  0 <= h < 24 -> 0 <= m < 60 -> parse_clock (fmt2 h ++ ":" ++ fmt2 m)%string = Some (h, m).
Proof.
  intros Hh Hm.
  destruct (fmt2_split h ltac:(lia)) as (-> & Hh1 & Hh2 & Eh).
  destruct (fmt2_split m ltac:(lia)) as (-> & Hm1 & Hm2 & Em).
  unfold parse_clock, getnum. simpl.
  rewrite !is_digit_digit by assumption. simpl.
  rewrite !is_digit_digit by assumption. rewrite !byte_digit by assumption.
  clock_result h m.
Qed.

Lemma parse_clock_short (h m : Z) :
  0 <= h <= 9 -> 0 <= m < 60 -> parse_clock (String (digit h) (":" ++ fmt2 m))%string = Some (h, m).
Proof.
  intros Hh Hm.
  destruct (fmt2_split m ltac:(lia)) as (-> & Hm1 & Hm2 & Em).
  unfold parse_clock, getnum. simpl.
  rewrite !is_digit_digit by assumption. simpl.
  rewrite !is_digit_digit by assumption. rewrite !byte_digit by assumption.
  clock_result h m.
Qed.

Lemma parse_clock_inv (s : string) (h m : Z) :
  parse_clock s = Some (h, m) ->
  0 <= h < 24 /\ 0 <= m < 60
  /\ (s = (fmt2 h ++ ":" ++ fmt2 m)%string
      \/ (h <= 9 /\ s = String (digit h) (":" ++ fmt2 m)%string)).
Proof.
  unfold parse_clock, getnum. intros H.
  destruct s as [|c1 s]; [discriminate|].
  destruct (is_digit c1) eqn:D1; [|discriminate].
  destruct (digit_of_is_digit c1 D1) as [B1 E1].
  destruct s as [|c2 s]; [discriminate|].
  destruct (is_digit c2) eqn:D2.
  - destruct (digit_of_is_digit c2 D2) as [B2 E2].
    destruct s as [|c3 s]; [discriminate|].
    destruct (Ascii.eqb c3 ":") eqn:E3; [|discriminate]. apply Ascii.eqb_eq in E3. subst c3.
    destruct s as [|c4 s]; [discriminate|].
    destruct (is_digit c4) eqn:D4; [|discriminate].
    destruct (digit_of_is_digit c4 D4) as [B4 E4].
    destruct s as [|c5 s]; [discriminate|].
    destruct (is_digit c5) eqn:D5; [|discriminate].
    destruct (digit_of_is_digit c5 D5) as [B5 E5].
    destruct s as [|c6 s]; [|discriminate].
    destruct ((byte_of c1 - 48) * 10 + (byte_of c2 - 48) <? 24) eqn:L1; [|discriminate].
    destruct ((byte_of c4 - 48) * 10 + (byte_of c5 - 48) <? 60) eqn:L2; [|discriminate].
    apply Z.ltb_lt in L1. apply Z.ltb_lt in L2.
    injection H as <- <-. split; [lia|]. split; [lia|]. left.
    rewrite !fmt2_digits by lia. simpl. rewrite <- E1, <- E2, <- E4, <- E5. reflexivity.
  - destruct (Ascii.eqb c2 ":") eqn:E2; [|discriminate]. apply Ascii.eqb_eq in E2. subst c2.
    destruct s as [|c4 s]; [discriminate|].
    destruct (is_digit c4) eqn:D4; [|discriminate].
    destruct (digit_of_is_digit c4 D4) as [B4 E4].
    destruct s as [|c5 s]; [discriminate|].
    destruct (is_digit c5) eqn:D5; [|discriminate].
    destruct (digit_of_is_digit c5 D5) as [B5 E5].
    destruct s as [|c6 s]; [|discriminate].
    destruct (byte_of c1 - 48 <? 24) eqn:L1; [|discriminate].
    destruct ((byte_of c4 - 48) * 10 + (byte_of c5 - 48) <? 60) eqn:L2; [|discriminate].
    apply Z.ltb_lt in L1. apply Z.ltb_lt in L2.
    injection H as <- <-. split; [lia|]. split; [lia|]. right. split; [lia|].
    rewrite !fmt2_digits by lia. simpl. rewrite <- E1, <- E4, <- E5. reflexivity.
Qed.

Lemma fmt_clock_nonempty (h m : Z) : String.eqb (fmt2 h ++ ":" ++ fmt2 m)%string "" = false.
Proof. reflexivity. Qed.

Lemma setup_clock_value (L : GoLib) (fs : FS) (now : Time) (g0 g : getter) :
  setup L fs now g0 = inr g ->
  (forall h m, parse_clock (NotBefore g0) = Some (h, m) ->
     NotBefore g = (fmt2 h ++ ":" ++ fmt2 m)%string)
  /\ (forall h m, parse_clock (NotAfter g0) = Some (h, m) ->
     NotAfter g = (fmt2 h ++ ":" ++ fmt2 m)%string)
  /\ (NotBefore g0 = ""%string -> NotBefore g = ""%string)
  /\ (NotAfter g0 = ""%string -> NotAfter g = ""%string).
Proof.
  intros H. destruct (setup_ok_fields L fs now g0 g H) as (Hnb & Hna & _).
  unfold normalise_clock in Hnb, Hna.
  repeat split.
  - intros h m Hp. rewrite Hp in Hnb. injection Hnb as <-. reflexivity.
  - intros h m Hp. rewrite Hp in Hna. injection Hna as <-. reflexivity.
  - intros He. rewrite He in Hnb. injection Hnb as <-. reflexivity.
  - intros He. rewrite He in Hna. injection Hna as <-. reflexivity.
Qed.

Lemma notbefore_numeric (g : getter) (t : Time) (h m : Z) :
  0 <= h < 24 -> 0 <= m < 60 ->
  NotBefore g = (fmt2 h ++ ":" ++ fmt2 m)%string ->
  notbefore_rule g t = (h * 60 + m <=? minute_of_day t).
Proof.
  intros Hh Hm Hnb. destruct (clock_ranges t) as [Ch Cm].
  unfold notbefore_rule, format_clock, minute_of_day. rewrite Hnb, fmt_clock_nonempty.
  rewrite Compare_clock by lia.
  destruct (Z.compare_spec (clock_hour t * 60 + clock_minute t) (h * 60 + m));
  destruct (Z.leb_spec (h * 60 + m) (clock_hour t * 60 + clock_minute t));
  try reflexivity; lia.
Qed.

Lemma notafter_numeric (g : getter) (t : Time) (h m : Z) :
  0 <= h < 24 -> 0 <= m < 60 ->
  NotAfter g = (fmt2 h ++ ":" ++ fmt2 m)%string ->
  notafter_rule g t = (minute_of_day t <=? h * 60 + m).
Proof.
  intros Hh Hm Hna. destruct (clock_ranges t) as [Ch Cm].
  unfold notafter_rule, format_clock, minute_of_day. rewrite Hna, fmt_clock_nonempty.
  rewrite Compare_clock by lia.
  destruct (Z.compare_spec (clock_hour t * 60 + clock_minute t) (h * 60 + m));
  destruct (Z.leb_spec (clock_hour t * 60 + clock_minute t) (h * 60 + m));
  try reflexivity; lia.
Qed.

Lemma parse_clock_range (s : string) (h m : Z) :
  parse_clock s = Some (h, m) -> 0 <= h < 24 /\ 0 <= m < 60.
Proof. intros H. destruct (parse_clock_inv s h m H) as (A & B & _). split; assumption. Qed.

(** Extra.  After [setup], the [NotBefore] and [NotAfter] checks of
    [should] compare times of day as numbers of minutes, both bounds
    inclusive: [setup] re-formats a parsed bound as zero-padded "HH:MM",
    as [t.Format("15:04")] is, so [strings.Compare] orders them by value.
    An empty bound is no restriction. *)
Theorem setup_clock_rules (L : GoLib) (fs : FS) (now t : Time) (g0 g : getter) :
  setup L fs now g0 = inr g ->
  (forall h m, parse_clock (NotBefore g0) = Some (h, m) ->
     notbefore_rule g t = (h * 60 + m <=? minute_of_day t))
  /\ (forall h m, parse_clock (NotAfter g0) = Some (h, m) ->
     notafter_rule g t = (minute_of_day t <=? h * 60 + m))
  /\ (NotBefore g0 = ""%string -> notbefore_rule g t = true)
  /\ (NotAfter g0 = ""%string -> notafter_rule g t = true).
Proof.
  intros H. destruct (setup_clock_value L fs now g0 g H) as (Vnb & Vna & Enb & Ena).
  repeat split.
  - intros h m Hp. destruct (parse_clock_range _ _ _ Hp).
    apply notbefore_numeric; [assumption|assumption|exact (Vnb h m Hp)].
  - intros h m Hp. destruct (parse_clock_range _ _ _ Hp).
    apply notafter_numeric; [assumption|assumption|exact (Vna h m Hp)].
  - intros He. unfold notbefore_rule. rewrite (Enb He). reflexivity.
  - intros He. unfold notafter_rule. rewrite (Ena He). reflexivity.
Qed.

(** Extra.  A window that wraps past midnight ([NotBefore] later than
    [NotAfter], e.g. 22:00 to 02:00) is never open: after [setup], [should]
    is false at every time. *)
Theorem setup_overnight_window (L : GoLib) (fs : FS) (now : Time) (g0 g : getter)
    (h1 m1 h2 m2 : Z) :
  setup L fs now g0 = inr g ->
  parse_clock (NotBefore g0) = Some (h1, m1) ->
  parse_clock (NotAfter g0) = Some (h2, m2) ->
  h2 * 60 + m2 < h1 * 60 + m1 ->
  forall t, should L g t = false.
Proof.
  intros H Hb Ha Hlt t. destruct (setup_clock_value L fs now g0 g H) as (Vnb & Vna & _).
  destruct (parse_clock_range _ _ _ Hb). destruct (parse_clock_range _ _ _ Ha).
  rewrite should_split, window_rules_split.
  rewrite (notbefore_numeric g t h1 m1), (notafter_numeric g t h2 m2);
    try assumption; [|exact (Vna h2 m2 Ha)|exact (Vnb h1 m1 Hb)].
  destruct (Z.leb_spec (h1 * 60 + m1) (minute_of_day t));
  destruct (Z.leb_spec (minute_of_day t) (h2 * 60 + m2));
  try (rewrite !andb_false_r; reflexivity); try (rewrite andb_false_l; reflexivity).
  lia.
Qed.

(** Extra.  [time.Parse("15:04", s)], as [setup] uses it for [NotBefore]
    and [NotAfter], accepts exactly an hour below 24 written with one or
    two digits, a colon, and a minute below 60 written with two digits,
    with nothing before or after. *)
Theorem parse_clock_accepts (s : string) (h m : Z) :
  parse_clock s = Some (h, m)
  <-> 0 <= h < 24 /\ 0 <= m < 60
      /\ (s = (fmt2 h ++ ":" ++ fmt2 m)%string
          \/ (h <= 9 /\ s = String (digit h) (":" ++ fmt2 m)%string)).
Proof.
  split; [apply parse_clock_inv|].
  intros (Hh & Hm & [-> | [H9 ->]]).
  - apply parse_clock_fmt; assumption.
  - apply parse_clock_short; lia.
Qed.

(** Extra.  The normalisation [setup] applies to [NotBefore] and
    [NotAfter] is a fixed point on its results: a value [setup] produced
    is accepted again and left unchanged, and it is either empty or five
    bytes "HH:MM". *)
Theorem normalise_clock_idempotent (s s' : string) :
  normalise_clock s = inr s' ->
  normalise_clock s' = inr s' /\ (s' = ""%string \/ String.length s' = 5%nat).
Proof.
  unfold normalise_clock at 1. intros H.
  destruct (parse_clock s) as [[h m]|] eqn:Hp.
  - injection H as <-. destruct (parse_clock_range _ _ _ Hp).
    split; [|right; reflexivity].
    unfold normalise_clock. rewrite parse_clock_fmt by assumption. reflexivity.
  - destruct (String.eqb s "") eqn:E; [|discriminate].
    injection H as <-. apply String.eqb_eq in E. subst s.
    split; [reflexivity|left; reflexivity].
Qed.

Lemma normalise_clock_idempotent_witness :
  normalise_clock "7:05" = inr "07:05"%string
  /\ normalise_clock "07:05" = inr "07:05"%string
  /\ ("07:05"%string = ""%string \/ String.length "07:05" = 5%nat).
Proof.
  assert (H : normalise_clock "7:05" = inr "07:05"%string) by (vm_compute; reflexivity).
  split; [exact H|]. exact (normalise_clock_idempotent "7:05" "07:05" H).
Defined.

(** A target set up with the window 22:00 to 02:00. *)
Definition overnight_cfg : getter := config test_url "/tmp/x" "22:00" "2:00" "" 0 "1h".

Definition overnight_getter : getter :=
  mkGetter test_url "/tmp/x" "22:00" "02:00" "" 0 "1h" test_url Hour zero_time 0 zero_time.

Lemma setup_overnight_window_witness :
  setup plain_lib ∅ noon_aug28 overnight_cfg = inr overnight_getter
  /\ should plain_lib overnight_getter (at_local aug28 23 0 0) = false.
Proof.
  assert (H : setup plain_lib ∅ noon_aug28 overnight_cfg = inr overnight_getter)
    by (vm_compute; reflexivity).
  assert (Hb : parse_clock (NotBefore overnight_cfg) = Some (22, 0)) by (vm_compute; reflexivity).
  assert (Ha : parse_clock (NotAfter overnight_cfg) = Some (2, 0)) by (vm_compute; reflexivity).
  split; [exact H|].
  exact (setup_overnight_window plain_lib ∅ noon_aug28 overnight_cfg overnight_getter
           22 0 2 0 H Hb Ha ltac:(lia) (at_local aug28 23 0 0)).
Defined.

(** A morning window set up from "7:00" and "09:00", at 08:30 local. *)
Definition morning_cfg : getter := config test_url "/tmp/x" "7:00" "09:00" "" 0 "1h".

Definition morning_getter : getter :=
  mkGetter test_url "/tmp/x" "07:00" "09:00" "" 0 "1h" test_url Hour zero_time 0 zero_time.

Lemma setup_clock_rules_witness :
  setup plain_lib ∅ noon_aug28 morning_cfg = inr morning_getter
  /\ notbefore_rule morning_getter (at_local aug28 8 30 pdt) = (7 * 60 + 0 <=? minute_of_day (at_local aug28 8 30 pdt)).
Proof.
  assert (H : setup plain_lib ∅ noon_aug28 morning_cfg = inr morning_getter)
    by (vm_compute; reflexivity).
  assert (Hb : parse_clock (NotBefore morning_cfg) = Some (7, 0)) by (vm_compute; reflexivity).
  split; [exact H|].
  exact (proj1 (setup_clock_rules plain_lib ∅ noon_aug28 (at_local aug28 8 30 pdt)
                  morning_cfg morning_getter H) 7 0 Hb).
Defined.

(* ------------------------------------------------------------------ *)
(** ** The files an attempt touches *)





(** A successful attempt installs a body of at least [MinimumSize] bytes
    at the output path and changes nothing else. *)
Lemma trydownload_success_final (L : GoLib) (a : Attempt) (g : getter) (fs : FS)
    (g' : getter) (tr : list FS) :
  trydownload L a g fs = (None, g', tr) ->
  exists body, g' = set_lastSuccess g (now_success a)
    /\ MinimumSize g <= Z.of_nat (length body)
    /\ final_fs fs tr = <[path_key (Output g) := mkFile body (now_write a)]> fs.
Proof.
  unfold trydownload. intros H.
  destruct (tmpl_exec L (urlt g) (now_url a)) as [url|]; [|discriminate].
  destruct (tmp_suffix a) as [r|]; [|discriminate].
  destruct (fs !! temp_key L (Output g) r) eqn:Hn; [discriminate|].
  destruct (http a) as [|code status body]; [discriminate|].
  destruct (negb (code =? StatusOK)); [discriminate|].
  destruct (copy_error_after a); [discriminate|].
  destruct (Z.of_nat (length body) <? MinimumSize g) eqn:Hm; [discriminate|].
  destruct (close_error a); [discriminate|].
  destruct (rename_error a); [discriminate|].
  injection H as <- <-. apply Z.ltb_ge in Hm.
  exists body. split; [reflexivity|]. split; [exact Hm|].
  rewrite final_fs_finish.
  rewrite delete_insert_ne by (apply temp_key_ne).
  rewrite delete_delete_eq.
  rewrite (temp_only_delete fs) by
    (first [exact Hn | apply temp_only_with_temp; eexists; reflexivity]).
  reflexivity.
Qed.



(** A target with a 2-byte minimum and a 3-byte answer. *)
Definition target2 : getter :=
  mkGetter test_url "/tmp/x" "" "" "" 2 "1h" test_url Hour zero_time 0 zero_time.

Definition try3 := trydownload plain_lib (attempt_with (resp200 3)) target2 fs_old.

Lemma try3_eq :
  trydownload plain_lib (attempt_with (resp200 3)) target2 fs_old
  = (None, set_lastSuccess target2 noon_aug28, snd try3).
Proof.
  assert (E1 : fst (fst try3) = None) by (vm_compute; reflexivity).
  assert (E2 : snd (fst try3) = set_lastSuccess target2 noon_aug28) by (vm_compute; reflexivity).
  rewrite <- E1, <- E2. unfold try3.
  destruct (trydownload plain_lib (attempt_with (resp200 3)) target2 fs_old) as [[e g'] tr].
  reflexivity.
Qed.


(* ------------------------------------------------------------------ *)
(** ** Restarts *)

(** Extra.  On a (re)start, [setup] takes [lastSuccess] from the output
    file's modification time, so an output file modified less than the
    TTL ago is not fetched again until the TTL has passed. *)
Theorem setup_fresh_output (L : GoLib) (fs : FS) (now t : Time) (g0 g : getter) (f : File) :
  setup L fs now g0 = inr g ->
  fs !! path_key (Output g0) = Some f ->
  Sub t (mtime f) < ttl g ->
  should L g t = false.
Proof.
  intros H Hf Hlt.
  destruct (setup_ok_fields L fs now g0 g H) as (_ & _ & _ & _ & _ & _ & _ & _ & Hls & _).
  rewrite Hf in Hls. rewrite should_split, Hls.
  apply Z.ltb_lt in Hlt. rewrite Hlt. reflexivity.
Qed.

(** An output file written ten minutes before noon on [aug28]. *)
Definition fs_fresh : FS :=
  {[ ("/tmp/"%string, "x"%string) := mkFile (bytes 3) (at_local aug28 11 50 0) ]}.

Definition x_cfg : getter := config test_url "/tmp/x" "" "" "" 2 "1h".

Definition fresh_getter : getter :=
  mkGetter test_url "/tmp/x" "" "" "" 2 "1h" test_url Hour (at_local aug28 11 50 0) 0 zero_time.

Lemma setup_fresh_output_witness :
  setup plain_lib fs_fresh noon_aug28 x_cfg = inr fresh_getter
  /\ should plain_lib fresh_getter (at_local aug28 12 0 0) = false.
Proof.
  assert (H : setup plain_lib fs_fresh noon_aug28 x_cfg = inr fresh_getter)
    by (vm_compute; reflexivity).
  assert (Hf : fs_fresh !! path_key (Output x_cfg) = Some (mkFile (bytes 3) (at_local aug28 11 50 0)))
    by (vm_compute; reflexivity).
  split; [exact H|].
  apply (setup_fresh_output plain_lib fs_fresh noon_aug28 (at_local aug28 12 0 0) x_cfg
           fresh_getter _ H Hf).
  vm_compute. reflexivity.
Defined.

(** Extra.  After a successful attempt, a restart's [setup] on the same
    output path sets [lastSuccess] to the installed file's modification
    time (the time of the temp file's last write), while the running
    getter had recorded the [time.Now()] read after the rename. *)
Theorem restart_after_success (L : GoLib) (a : Attempt) (g : getter) (fs : FS)
    (g' : getter) (tr : list FS) (now : Time) (g0 g1 : getter) :
  trydownload L a g fs = (None, g', tr) ->
  Output g0 = Output g ->
  setup L (final_fs fs tr) now g0 = inr g1 ->
  lastSuccess g1 = now_write a /\ lastSuccess g' = now_success a.
Proof.
  intros H Ho Hs.
  destruct (trydownload_success_final L a g fs g' tr H) as (body & -> & _ & Hfin).
  destruct (setup_ok_fields L _ now g0 g1 Hs) as (_ & _ & _ & _ & _ & _ & _ & _ & Hls & _).
  split; [|reflexivity].
  rewrite Hls, Hfin, Ho, lookup_insert_eq. reflexivity.
Qed.

Definition restarted_getter : getter :=
  mkGetter test_url "/tmp/x" "" "" "" 2 "1h" test_url Hour noon_aug28 0 zero_time.

Lemma restart_after_success_witness :
  setup plain_lib (final_fs fs_old (snd try3)) noon_aug28 x_cfg = inr restarted_getter
  /\ lastSuccess restarted_getter = now_write (attempt_with (resp200 3))
  /\ lastSuccess (set_lastSuccess target2 noon_aug28) = now_success (attempt_with (resp200 3)).
Proof.
  assert (Hs : setup plain_lib (final_fs fs_old (snd try3)) noon_aug28 x_cfg = inr restarted_getter)
    by (vm_compute; reflexivity).
  split; [exact Hs|].
  exact (restart_after_success plain_lib _ _ _ _ _ noon_aug28 x_cfg restarted_getter
           try3_eq eq_refl Hs).
Defined.

(* ------------------------------------------------------------------ *)
(** ** [run]: one [download] per tick *)

(** [run] calls [download] once at once and then at every tick of a
    one-minute ticker, forever; [run L g fs ticks] is the prefix of that
    loop over the given ticks: the getter afterwards and every file-system
    state it went through. *)
Fixpoint run (L : GoLib) (g : getter) (fs : FS) (ticks : list Attempt) : getter * list FS :=
  match ticks with
  | [] => (g, [fs])
  | a :: rest =>
      let '(g1, tr1) := download L a g fs in
      let '(g2, tr2) := run L g1 (final_fs fs tr1) rest in
      (g2, tr1 ++ tr2)
  end.








Lemma run_idle (L : GoLib) (rest : list Attempt) (g : getter) (fs : FS) :
  (forall b, In b rest -> should L g (now_should b) = false) ->
  run L g fs rest = (g, repeat fs (S (length rest))).
Proof.
  induction rest as [|b rest IH]; intros H; [reflexivity|].
  cbn [run]. unfold download. rewrite (H b (or_introl eq_refl)). cbn [negb].
  unfold final_fs. cbn [List.last].
  rewrite IH by (intros b' Hb'; apply H; right; exact Hb'). reflexivity.
Qed.

(** Extra.  After a successful attempt, [run] makes no further attempt
    (and leaves every file as the attempt left it) at any later tick
    less than the TTL after the [time.Now()] recorded as [lastSuccess]. *)
Theorem run_ttl_quiet (L : GoLib) (a : Attempt) (rest : list Attempt) (g : getter) (fs : FS)
    (g' : getter) (tr : list FS) :
  should L g (now_should a) = true ->
  trydownload L a g fs = (None, g', tr) ->
  (forall b, In b rest -> Sub (now_should b) (now_success a) < ttl g) ->
  run L g fs (a :: rest)
  = (report g' true (now_fail_since a) (now_fail_gauge a),
     tr ++ repeat (final_fs fs tr) (S (length rest))).
Proof.
  intros Hs Ht Hq. cbn [run].
  rewrite (download_attempted L a g fs None g' tr Hs Ht). cbn [is_ok].
  destruct (trydownload_success_final L a g fs g' tr Ht) as (body & -> & _).
  rewrite run_idle; [reflexivity|].
  intros b Hb. rewrite should_split. cbn [report set_fail set_lastSuccess lastSuccess ttl].
  pose proof (proj2 (Z.ltb_lt _ _) (Hq b Hb)) as Hlt. rewrite Hlt. reflexivity.
Qed.

(** A second tick ten minutes after a successful one. *)
Definition tick_1210 : Attempt :=
  mkAttempt (at_local aug28 12 10 0) (at_local aug28 12 10 0) (Some "456"%string) (resp200 3)
    None false false (at_local aug28 12 10 0) (at_local aug28 12 10 0)
    (at_local aug28 12 10 0) (at_local aug28 12 10 0).

Lemma run_ttl_quiet_witness :
  run plain_lib target2 fs_old [attempt_with (resp200 3); tick_1210]
  = (report (set_lastSuccess target2 noon_aug28) true noon_aug28 noon_aug28,
     snd try3 ++ repeat (final_fs fs_old (snd try3)) 2).
Proof.
  assert (Hs : should plain_lib target2 (now_should (attempt_with (resp200 3))) = true)
    by (vm_compute; reflexivity).
  assert (Hq : forall b, In b [tick_1210] -> Sub (now_should b) (now_success (attempt_with (resp200 3))) < ttl target2)
    by (intros b [<-|[]]; vm_compute; reflexivity).
  exact (run_ttl_quiet plain_lib _ [tick_1210] target2 fs_old _ _ Hs try3_eq Hq).
Defined.



(* ------------------------------------------------------------------ *)
(** ** [filepath.Split] and label values *)

Lemma split_rev_spec (r acc : list ascii) :
  rev r ++ acc = rev (fst (split_rev r acc)) ++ snd (split_rev r acc)
  /\ (~ In "/"%char acc -> ~ In "/"%char (snd (split_rev r acc)))
  /\ (fst (split_rev r acc) = [] \/ exists rd, fst (split_rev r acc) = "/"%char :: rd).
Proof.
  revert acc. induction r as [|c r IH]; intros acc.
  - simpl. split; [reflexivity|]. split; [auto|left; reflexivity].
  - cbn [split_rev]. destruct (Ascii.eqb c "/") eqn:E.
    + apply Ascii.eqb_eq in E. subst c. cbn [fst snd].
      split; [reflexivity|]. split; [auto|right; eexists; reflexivity].
    + apply Ascii.eqb_neq in E.
      destruct (IH (c :: acc)) as (H1 & H2 & H3).
      split; [|split].
      * cbn [rev]. rewrite <- app_assoc. exact H1.
      * intros Hn. apply H2. intros [Hc|Hin]; [congruence|contradiction].
      * exact H3.
Qed.

Lemma string_of_list_ascii_app (x y : list ascii) :
  string_of_list_ascii (x ++ y) = (string_of_list_ascii x ++ string_of_list_ascii y)%string.
Proof. induction x as [|c x IH]; simpl; [reflexivity|]. rewrite IH. reflexivity. Qed.

(** Extra.  [filepath.Split], which [trydownload] uses to place the temp
    file next to the output: the directory part followed by the file part
    is the path again, the file part contains no '/', and the directory
    part is empty or ends in '/'. *)
Theorem Split_spec (p : string) :
  (fst (Split p) ++ snd (Split p))%string = p
  /\ ~ In "/"%char (list_ascii_of_string (snd (Split p)))
  /\ (fst (Split p) = ""%string \/ exists d, fst (Split p) = (d ++ "/")%string).
Proof.
  unfold Split.
  destruct (split_rev_spec (rev (list_ascii_of_string p)) []) as (H1 & H2 & H3).
  destruct (split_rev (rev (list_ascii_of_string p)) []) as [rd f]. cbn [fst snd] in *.
  rewrite rev_involutive, app_nil_r in H1.
  split; [|split].
  - unfold string_of_rev. rewrite <- string_of_list_ascii_app, <- H1.
    apply string_of_list_ascii_of_string.
  - rewrite list_ascii_of_string_of_list_ascii. apply H2. intros [].
  - destruct H3 as [->|[rd' ->]]; [left; reflexivity|right].
    exists (string_of_rev rd'). unfold string_of_rev. cbn [rev].
    rewrite string_of_list_ascii_app. reflexivity.
Qed.

Lemma utf8_valid_ascii (s : string) :
  is_ascii_str s = true -> utf8_valid (map byte_of (list_ascii_of_string s)) = true.
Proof.
  induction s as [|c s IH]; [reflexivity|].
  cbn [is_ascii_str list_ascii_of_string map utf8_valid].
  intros H. apply andb_true_iff in H as [Hc Hs].
  unfold non_ascii in Hc. apply negb_true_iff, Z.leb_gt in Hc.
  apply Z.ltb_lt in Hc. rewrite Hc. exact (IH Hs).
Qed.

(** Extra.  [setup] never fails to obtain the failure gauge for an output
    path made of ASCII bytes only: the label value check of the gauge
    vector rejects only paths that are not valid UTF-8. *)
Theorem setup_ascii_output_gauge (L : GoLib) (fs : FS) (now : Time) (g0 : getter) :
  is_ascii_str (Output g0) = true -> setup L fs now g0 <> inl EGauge.
Proof.
  intros Ha. assert (Hl : label_value_ok (Output g0) = true) by (apply utf8_valid_ascii; exact Ha).
  unfold setup. rewrite Hl. cbn [negb].
  destruct (tmpl_parse L (URL g0)); cbn [negb]; [|discriminate].
  destruct (tmpl_exec L (URL g0) now) as [u|]; [|discriminate].
  destruct (url_scheme L u) as [sc|]; [|discriminate].
  destruct (String.eqb sc ""); [discriminate|].
  destruct (normalise_clock (NotBefore g0)); [discriminate|].
  destruct (normalise_clock (NotAfter g0)); [discriminate|].
  destruct (String.eqb (TTL g0) ""); [discriminate|].
  destruct (parse_duration L (TTL g0)); discriminate.
Qed.

Lemma setup_ascii_output_gauge_witness :
  is_ascii_str (Output x_cfg) = true /\ setup plain_lib ∅ noon_aug28 x_cfg <> inl EGauge.
Proof.
  assert (H : is_ascii_str (Output x_cfg) = true) by (vm_compute; reflexivity).
  split; [exact H|]. exact (setup_ascii_output_gauge plain_lib ∅ noon_aug28 x_cfg H).
Defined.

(** Extra.  Ticks at which no fetch is due ([should] false) do nothing:
    over any run of such ticks the getter, including [lastSuccess],
    [failSince] and the failure gauge's value, stays as it was (the
    gauge is not refreshed) and no file changes. *)
Theorem run_not_due_frozen (L : GoLib) (ticks : list Attempt) (g : getter) (fs : FS) :
  (forall b, In b ticks -> should L g (now_should b) = false) ->
  fst (run L g fs ticks) = g /\ Forall (fun m => m = fs) (snd (run L g fs ticks)).
Proof.
  intros H. rewrite (run_idle L ticks g fs H). cbn [fst snd]. split; [reflexivity|].
  apply Forall_forall. intros m Hm. apply list_elem_of_In, repeat_spec in Hm. exact Hm.
Qed.

Lemma run_not_due_frozen_witness :
  fst (run plain_lib (set_lastSuccess target2 noon_aug28) fs_old [tick_1210])
    = set_lastSuccess target2 noon_aug28
  /\ Forall (fun m => m = fs_old)
       (snd (run plain_lib (set_lastSuccess target2 noon_aug28) fs_old [tick_1210])).
Proof.
  apply run_not_due_frozen. intros b [<-|[]]. vm_compute. reflexivity.
Defined.
